(** * sarifdump: the GCC-style SARIF dumper, embedded and verified

    A shallow embedding of [sarifdump.py] (class [GccStyleDumper]) and the
    properties of its rendering engine.

    The dumper walks a tree of nested Python dicts, lists, strings and
    numbers (a loaded SARIF document), probes keys with [in], subscripts
    with [x['key']] and [x[0]], and writes text to [self.dst_file].  The
    embedding keeps that dynamic view: documents are [json] trees, every
    subscript can raise, and the dumper is a state-and-exception monad over
    the three attributes set by [__init__]. *)

From stdpp Require Import gmap strings list fin_maps pretty.
From Stdlib Require Import ZArith Ascii String.

#[local] Set Warnings "-register-all".
#[local] Open Scope string_scope.

(** ** The document tree *)

(** What [json.load] produces: [None], [bool], [int], [str], [list] and
    [dict] with string keys.  Numbers are the integers (SARIF line and
    column numbers are); a dict is a finite map, so two dicts with the same
    entries are the same value, as for Python's [==]. *)
Inductive json :=
| JNull
| JBool (b : bool)
| JNum (n : Z)
| JStr (s : string)
| JArr (l : list json)
| JObj (m : gmap string json).

#[global] Instance json_inhabited : Inhabited json := populate JNull.

#[global] Instance json_eq_dec : EqDecision json.
Proof.
  refine (fix go (a b : json) {struct a} : Decision (a = b) :=
    let _ : EqDecision json := @go in
    match a, b with
    | JNull, JNull => left _
    | JBool x, JBool y => cast_if (decide (x = y))
    | JNum x, JNum y => cast_if (decide (x = y))
    | JStr x, JStr y => cast_if (decide (x = y))
    | JArr x, JArr y => cast_if (decide (x = y))
    | JObj x, JObj y => cast_if (decide (x = y))
    | _, _ => right _
    end); congruence.
Defined.

(** Python's exceptions that subscripting and formatting raise here. *)
Inductive exn :=
| KeyError (key : json)
| IndexError
| TypeError.

#[global] Instance exn_eq_dec : EqDecision exn.
Proof. solve_decision. Defined.

(** The outcome of evaluating an expression or running a method. *)
Inductive outcome (A : Type) :=
| Returned (a : A)
| Raised (e : exn).
Arguments Returned {A} a.
Arguments Raised {A} e.

Definition outcome_bind {A B} (f : A → outcome B) (o : outcome A) : outcome B :=
  match o with
  | Returned a => f a
  | Raised e => Raised e
  end.

#[global] Instance outcome_mret : MRet outcome := @Returned.
#[global] Instance outcome_mbind : MBind outcome := @outcome_bind.

(** ** Python's operators on the tree *)

Module Py.

  (** [True == 1] and [False == 0] in Python: [bool] is a subclass of
      [int].  Comparing two trees with [==] is comparing them after booleans
      are read as integers. *)
Fixpoint norm (j : json) : json :=
    match j with
    | JBool b => JNum (if b then 1 else 0)
    | JArr l => JArr (norm <$> l)
    | JObj m => JObj (norm <$> m)
    | _ => j
    end.

  (** [a == b] *)
Definition eq (a b : json) : bool := bool_decide (norm a = norm b).

  (** [needle in haystack] for two [str]: the substring test. *)
Fixpoint substring (needle haystack : string) : bool :=
    String.prefix needle haystack ||
    match haystack with
    | EmptyString => false
    | String _ rest => substring needle rest
    end.

  (** A [str] is held as its UTF-8 bytes.  A character is a code point: a
      byte and the continuation bytes, [10xxxxxx], that follow it. *)
Definition continuation (c : ascii) : bool :=
    match c with
    | Ascii _ _ _ _ _ _ b6 b7 => b7 && negb b6
    end.

  (** The continuation bytes a [str] starts with. *)
Fixpoint continuations (s : string) : string :=
    match s with
    | EmptyString => EmptyString
    | String c rest =>
        if continuation c then String c (continuations rest) else EmptyString
    end.

  (** The characters of a [str], each as a one-character [str]. *)
Fixpoint chars (s : string) : list json :=
    match s with
    | EmptyString => []
    | String c rest =>
        match rest with
        | String c' _ =>
            if continuation c' then
              match chars rest with
              | JStr h :: t => JStr (String c h) :: t
              | t => JStr (String c EmptyString) :: t
              end
            else JStr (String c EmptyString) :: chars rest
        | EmptyString => [JStr (String c EmptyString)]
        end
    end.

  (** ['key' in x] *)
Definition contains (key : string) (x : json) : outcome bool :=
    match x with
    | JObj m => Returned (bool_decide (is_Some (m !! key)))
    | JArr l => Returned (existsb (eq (JStr key)) l)
    | JStr s => Returned (substring key s)
    | _ => Raised TypeError
    end.

  (** [x['key']] *)
Definition getitem (x : json) (key : string) : outcome json :=
    match x with
    | JObj m =>
        match m !! key with
        | Some v => Returned v
        | None => Raised (KeyError (JStr key))
        end
    | _ => Raised TypeError
    end.

  (** [x[0]]: a dict loaded from JSON has only string keys, so [0] is
      never one of them; of a [str] it is the first character. *)
Definition first (x : json) : outcome json :=
    match x with
    | JArr (v :: _) => Returned v
    | JArr [] => Raised IndexError
    | JStr (String c rest) => Returned (JStr (String c (continuations rest)))
    | JStr EmptyString => Raised IndexError
    | JObj _ => Raised (KeyError (JNum 0))
    | _ => Raised TypeError
    end.

  (** [if x:] *)
Definition truthy (x : json) : bool :=
    match x with
    | JNull => false
    | JBool b => b
    | JNum n => bool_decide (n ≠ 0%Z)
    | JStr s => bool_decide (s ≠ "")
    | JArr l => bool_decide (l ≠ [])
    | JObj m => bool_decide (m ≠ ∅)
    end.

  (** [for v in x]: the elements of a list, the keys of a dict, the
      characters of a str. *)
Definition iter (x : json) : outcome (list json) :=
    match x with
    | JArr l => Returned l
    | JObj m => Returned (JStr <$> (map_to_list m).*1)
    | JStr s => Returned (chars s)
    | _ => Raised TypeError
    end.

  (** ['%i' % x] *)
Definition format_i (x : json) : outcome string :=
    match x with
    | JNum n => Returned (pretty n)
    | JBool b => Returned (if b then "1" else "0")
    | _ => Raised TypeError
    end.

Definition newline : string := String "010"%char EmptyString.

End Py.

(** ** [pathlib.Path] on a POSIX system *)

Module Pathlib.

  (** [s.split('/')] *)
Fixpoint split (s : string) : list string :=
    match s with
    | EmptyString => [""]
    | String c rest =>
        if decide (c = "/"%char) then "" :: split rest
        else match split rest with
             | h :: t => String c h :: t
             | [] => [String c EmptyString]
             end
    end.

Fixpoint ends_with_slash (s : string) : bool :=
    match s with
    | EmptyString => false
    | String c EmptyString => bool_decide (c = "/"%char)
    | String _ rest => ends_with_slash rest
    end.

  (** [posixpath.join(a, b)] *)
Definition join (a b : string) : string :=
    if String.prefix "/" b then b
    else if bool_decide (a = "") || ends_with_slash a then a +:+ b
    else a +:+ "/" +:+ b.

  (** [posixpath.splitroot(p)]: the root, [""], ["/"] or ["//"]. *)
Definition root (p : string) : string :=
    if negb (String.prefix "/" p) then ""
    else if negb (String.prefix "//" p) || String.prefix "///" p then "/"
    else "//".

  (** The components kept by the parser: not empty, not ["."]. *)
Definition parts (p : string) : list string :=
    filter (λ x, x ≠ "" ∧ x ≠ ".") (split p).

  (** [str(PurePosixPath(p))] *)
Definition normal (p : string) : string :=
    let r := root p +:+ String.concat "/" (parts p) in
    if bool_decide (r = "") then "." else r.

  (** [str(Path(base, filename))] *)
Definition Path (base filename : string) : string :=
    normal (join base filename).

End Pathlib.

(** ** The dumper *)

(** The attributes [__init__] sets.  [dst_file] is the text written to the
    file object so far; [base_path] is the string form of the path given. *)
Record GccStyleDumper := {
  dst_file : string;
  base_path : string;
  last_logical_location : json;
}.

(** [GccStyleDumper(dst_file, base_path)] *)
Definition init (dst : string) (base : string) : GccStyleDumper :=
  {| dst_file := dst; base_path := base; last_logical_location := JNull |}.

(** A method body: it reads and updates [self], and returns or raises.
    The state reached when an exception is raised is kept: what was written
    before stays written. *)
Definition M (A : Type) : Type := GccStyleDumper → outcome A * GccStyleDumper.

Definition M_ret {A} (a : A) : M A := λ self, (Returned a, self).

Definition M_bind {A B} (f : A → M B) (c : M A) : M B :=
  λ self,
    match c self with
    | (Returned a, self') => f a self'
    | (Raised e, self') => (Raised e, self')
    end.

#[global] Instance M_mret : MRet M := @M_ret.
#[global] Instance M_mbind : MBind M := @M_bind.

(** Evaluating an expression inside a method. *)
Definition eval {A} (o : outcome A) : M A := λ self, (o, self).

Definition raise {A} (e : exn) : M A := eval (Raised e).

(** [for x in l: body(x)] *)
Fixpoint for_each {A} (body : A → M unit) (l : list A) : M unit :=
  match l with
  | [] => mret ()
  | x :: rest => body x ;; for_each body rest
  end.

(** [for idx, x in enumerate(l): body(idx, x)], counting from [idx]. *)
Fixpoint for_each_enumerate {A} (body : nat → A → M unit) (idx : nat)
    (l : list A) : M unit :=
  match l with
  | [] => mret ()
  | x :: rest => body idx x ;; for_each_enumerate body (S idx) rest
  end.

(** [if cond: body] *)
Definition when (cond : bool) (body : M unit) : M unit :=
  if cond then body else mret ().

Section Dumper.

  (** [str(x)] for a list or a dict [x], which ['%s' % x] prints.  It
      belongs to the Python runtime (it depends on the insertion order of
      dict keys and on the quoting of strings) and is taken as given. *)
Variable str_of_container : json → string.

  (** ['%s' % x] *)
Definition format_s (x : json) : string :=
    match x with
    | JStr s => s
    | JNum n => pretty n
    | JBool b => if b then "True" else "False"
    | JNull => "None"
    | _ => str_of_container x
    end.

  (** [self.dst_file.write(text)] for a [str] *)
Definition write (text : string) : M unit :=
    λ self,
      (Returned (),
       {| dst_file := dst_file self +:+ text;
          base_path := base_path self;
          last_logical_location := last_logical_location self |}).

  (** [self.write(x)] for the value of an expression: a file object
      accepts a [str] only. *)
Definition write_value (x : json) : M unit :=
    match x with
    | JStr s => write s
    | _ => raise TypeError
    end.

Definition writeln : M unit := write Py.newline.

Definition set_last_logical_location (l : json) : M unit :=
    λ self,
      (Returned (),
       {| dst_file := dst_file self;
          base_path := base_path self;
          last_logical_location := l |}).

Definition get_last_logical_location : M json :=
    λ self, (Returned (last_logical_location self), self).

Definition get_base_path : M string :=
    λ self, (Returned (base_path self), self).

  (** Handle a §3.33 logicalLocation object. *)
Definition write_logical_location (logicalLocation : json) : M unit :=
    last ← get_last_logical_location;
    if Py.eq logicalLocation last then mret ()
    else
      set_last_logical_location logicalLocation;;
      kind ← eval (Py.getitem logicalLocation "kind");
      when (Py.eq kind (JStr "function"))
        (name ← eval (Py.getitem logicalLocation "fullyQualifiedName");
         write ("In function '" +:+ format_s name +:+ "':");;
         writeln).

  (** Handle a §3.29 physicalLocation object. *)
Definition write_physical_location (physicalLocation : json) : M unit :=
    artifactLocation ← eval (Py.getitem physicalLocation "artifactLocation");
    filename ← eval (Py.getitem artifactLocation "uri");
    region ← eval (Py.getitem physicalLocation "region");
    base ← get_base_path;
    path ← (match filename with
            | JStr f => mret (Pathlib.Path base f)
            | _ => raise TypeError
            end);
    startLine ← eval (Py.getitem region "startLine");
    line ← eval (Py.format_i startLine);
    write (path +:+ ":" +:+ line +:+ ":");;
    has_column ← eval (Py.contains "startColumn" region);
    when has_column
      (region' ← eval (Py.getitem physicalLocation "region");
       startColumn ← eval (Py.getitem region' "startColumn");
       column ← eval (Py.format_i startColumn);
       write (column +:+ ":"));;
    write " ".

  (** Handle a §3.28 location object. *)
Definition write_location (location : json) : M unit :=
    has_logical ← eval (Py.contains "logicalLocations" location);
    when has_logical
      (logicalLocations ← eval (Py.getitem location "logicalLocations");
       when (Py.truthy logicalLocations)
         (logicalLocation ← eval (Py.first logicalLocations);
          write_logical_location logicalLocation));;
    has_physical ← eval (Py.contains "physicalLocation" location);
    when has_physical
      (physicalLocation ← eval (Py.getitem location "physicalLocation");
       write_physical_location physicalLocation).

  (** Handle a §3.52 reportingDescriptorReference object. *)
Definition write_reporting_descriptor_reference (rdr : json) : M unit :=
    has_component ← eval (Py.contains "toolComponent" rdr);
    when has_component
      (toolComponent ← eval (Py.getitem rdr "toolComponent");
       name ← eval (Py.getitem toolComponent "name");
       when (Py.eq name (JStr "cwe"))
         (id ← eval (Py.getitem rdr "id");
          write (" [CWE-" +:+ format_s id +:+ "]"))).

  (** Handle a §3.38 threadFlowLocation object. *)
Definition write_thread_flow_location (idx : nat) (threadFlowLocation : json)
      : M unit :=
    location ← eval (Py.getitem threadFlowLocation "location");
    write_location location;;
    write ("(" +:+ pretty (idx + 1) +:+ ") ");;
    location' ← eval (Py.getitem threadFlowLocation "location");
    message ← eval (Py.getitem location' "message");
    text ← eval (Py.getitem message "text");
    write_value text;;
    writeln.

  (** Handle a §3.37 threadFlow object. *)
Definition write_thread_flow (threadFlow : json) : M unit :=
    locations ← eval (Py.getitem threadFlow "locations");
    steps ← eval (Py.iter locations);
    for_each_enumerate write_thread_flow_location 0 steps.

  (** Handle a §3.36 codeFlow object. *)
Definition write_code_flow (codeFlow : json) : M unit :=
    threadFlows ← eval (Py.getitem codeFlow "threadFlows");
    threadFlow ← eval (Py.first threadFlows);
    write_thread_flow threadFlow.

  (** The statements of [dump_sarif_result] up to and including
      [self.writeln()]: the result's own line. *)
Definition dump_result_line (result : json) : M unit :=
    has_locations ← eval (Py.contains "locations" result);
    when has_locations
      (locations ← eval (Py.getitem result "locations");
       loc ← eval (Py.first locations);
       write_location loc);;
    has_level ← eval (Py.contains "level" result);
    when has_level
      (level ← eval (Py.getitem result "level");
       write (format_s level +:+ ": "));;
    message ← eval (Py.getitem result "message");
    text ← eval (Py.getitem message "text");
    write (format_s text);;
    has_taxa ← eval (Py.contains "taxa" result);
    when has_taxa
      (taxa ← eval (Py.getitem result "taxa");
       rdrs ← eval (Py.iter taxa);
       for_each write_reporting_descriptor_reference rdrs);;
    has_rule ← eval (Py.contains "ruleId" result);
    when has_rule
      (ruleId ← eval (Py.getitem result "ruleId");
       write (" [" +:+ format_s ruleId +:+ "]"));;
    writeln.

  (** The last statement of [dump_sarif_result]: the code flow. *)
Definition dump_result_code_flow (result : json) : M unit :=
    has_flows ← eval (Py.contains "codeFlows" result);
    when has_flows
      (codeFlows ← eval (Py.getitem result "codeFlows");
       codeFlow ← eval (Py.first codeFlows);
       write_code_flow codeFlow).

  (** Handle a §3.27 result object. *)
Definition dump_sarif_result (result : json) : M unit :=
    dump_result_line result;;
    dump_result_code_flow result.

  (** [dump_sarif_file], on the list [sarif_file.get_results()] returns. *)
Definition dump_sarif_file (results : list json) : M unit :=
    for_each dump_sarif_result results.

End Dumper.

(** * Reasoning about method bodies *)

(** The dumper after [w] more has been written. *)
Definition append_dst (w : string) (self : GccStyleDumper) : GccStyleDumper :=
  {| dst_file := dst_file self +:+ w;
     base_path := base_path self;
     last_logical_location := last_logical_location self |}.

Lemma append_cons (x : ascii) (a b : string) :
  String x a +:+ b = String x (a +:+ b).
Proof. reflexivity. Qed.

Lemma append_assoc (a b c : string) : (a +:+ b) +:+ c = a +:+ (b +:+ c).
Proof.
  induction a as [|x a IH]; [done|]. rewrite !append_cons. by f_equal.
Qed.

Lemma append_empty_r (a : string) : a +:+ "" = a.
Proof.
  induction a as [|x a IH]; [done|]. rewrite append_cons. by f_equal.
Qed.

Lemma append_inv_l (a b c : string) : a +:+ b = a +:+ c → b = c.
Proof. apply String.app_inj. Qed.

Lemma append_dst_append (v w : string) (self : GccStyleDumper) :
  append_dst w (append_dst v self) = append_dst (v +:+ w) self.
Proof.
  unfold append_dst; cbn [dst_file base_path last_logical_location].
  by rewrite append_assoc.
Qed.

Lemma append_dst_empty (self : GccStyleDumper) : append_dst "" self = self.
Proof.
  destruct self; unfold append_dst; cbn [dst_file base_path last_logical_location].
  by rewrite append_empty_r.
Qed.

(** ** Running a bind *)

Lemma bind_run {A B} (c : M A) (f : A → M B) (self : GccStyleDumper) :
  (c ≫= f) self =
  match c self with
  | (Returned a, self') => f a self'
  | (Raised e, self') => (Raised e, self')
  end.
Proof. reflexivity. Qed.

Lemma bind_returned {A B} (c : M A) (f : A → M B) self a self' :
  c self = (Returned a, self') → (c ≫= f) self = f a self'.
Proof. intros H. by rewrite bind_run, H. Qed.

Lemma bind_raised {A B} (c : M A) (f : A → M B) self e self' :
  c self = (Raised e, self') → (c ≫= f) self = (Raised e, self').
Proof. intros H. by rewrite bind_run, H. Qed.

Lemma bind_returned_inv {A B} (c : M A) (f : A → M B) self b self'' :
  (c ≫= f) self = (Returned b, self'') →
  ∃ a self', c self = (Returned a, self') ∧ f a self' = (Returned b, self'').
Proof.
  rewrite bind_run. destruct (c self) as [[a|e] self']; [eauto | done].
Qed.

Lemma eval_run {A} (o : outcome A) self : eval o self = (o, self).
Proof. reflexivity. Qed.

Lemma when_true (body : M unit) : when true body = body.
Proof. reflexivity. Qed.

Lemma when_false (body : M unit) self : when false body self = (Returned (), self).
Proof. reflexivity. Qed.

(** ** Lookups in a dict *)

Lemma contains_Some key (m : gmap string json) v :
  m !! key = Some v → Py.contains key (JObj m) = Returned true.
Proof. intros H. simpl. by rewrite H. Qed.

Lemma contains_None key (m : gmap string json) :
  m !! key = None → Py.contains key (JObj m) = Returned false.
Proof. intros H. simpl. by rewrite H. Qed.

Lemma getitem_Some key (m : gmap string json) v :
  m !! key = Some v → Py.getitem (JObj m) key = Returned v.
Proof. intros H. simpl. by rewrite H. Qed.

Lemma getitem_None key (m : gmap string json) :
  m !! key = None → Py.getitem (JObj m) key = Raised (KeyError (JStr key)).
Proof. intros H. simpl. by rewrite H. Qed.

Lemma contains_true_getitem key x :
  Py.contains key x = Returned true →
  (∃ m v, x = JObj m ∧ m !! key = Some v) ∨ Py.getitem x key = Raised TypeError.
Proof.
  destruct x as [| | | |l|m]; simpl; try done; auto.
  destruct (m !! key) as [v|] eqn:E; [|done]. left. eauto.
Qed.

Lemma getitem_returned_inv x key v :
  Py.getitem x key = Returned v → ∃ m, x = JObj m ∧ m !! key = Some v.
Proof.
  destruct x as [| | | | |m]; simpl; try done.
  destruct (m !! key) eqn:E; [|done]. intros [= <-]. eauto.
Qed.

(** ** Python's [==] is an equivalence *)

Lemma py_eq_refl a : Py.eq a a = true.
Proof. unfold Py.eq. by apply bool_decide_eq_true. Qed.

Lemma py_eq_sym a b : Py.eq a b = Py.eq b a.
Proof. unfold Py.eq. apply bool_decide_ext. split; congruence. Qed.

Lemma py_eq_trans a b c : Py.eq a b = true → Py.eq b c = true → Py.eq a c = true.
Proof.
  unfold Py.eq. rewrite !bool_decide_eq_true. congruence.
Qed.

Lemma py_eq_str a s : Py.eq a (JStr s) = true ↔ a = JStr s.
Proof.
  unfold Py.eq. rewrite bool_decide_eq_true. simpl. split; [|by intros ->].
  destruct a; simpl; congruence.
Qed.

(** ** Method bodies only append to the sink *)

(** A method body is [appending] when, from a dumper with base path [b]
    and last logical location [l], its outcome, the text it writes and the
    logical location it leaves do not depend on what the sink already holds,
    and it keeps the base path. *)
Definition appending {A} (c : M A) : Prop :=
  ∀ b l, ∃ r w l', ∀ d,
    c {| dst_file := d; base_path := b; last_logical_location := l |}
    = (r, {| dst_file := d +:+ w; base_path := b; last_logical_location := l' |}).

Lemma appending_ret {A} (a : A) : appending (mret a : M A).
Proof.
  intros b l. exists (Returned a), "", l. intros d.
  by rewrite append_empty_r.
Qed.

Lemma appending_eval {A} (o : outcome A) : appending (eval o).
Proof.
  intros b l. exists o, "", l. intros d. unfold eval.
  by rewrite append_empty_r.
Qed.

Lemma appending_raise {A} (e : exn) : appending (raise e : M A).
Proof. apply appending_eval. Qed.

Lemma appending_bind {A B} (c : M A) (f : A → M B) :
  appending c → (∀ a, appending (f a)) → appending (c ≫= f).
Proof.
  intros Hc Hf b l. destruct (Hc b l) as (r & w & l' & Hrun).
  destruct r as [a|e].
  - destruct (Hf a b l') as (r2 & w2 & l2 & Hrun2).
    exists r2, (w +:+ w2), l2. intros d.
    rewrite bind_run, Hrun, Hrun2. by rewrite append_assoc.
  - exists (Raised e), w, l'. intros d. by rewrite bind_run, Hrun.
Qed.

Lemma appending_when (cond : bool) (body : M unit) :
  appending body → appending (when cond body).
Proof. destruct cond; [done|]. intros _. apply (appending_ret ()). Qed.

Lemma appending_for_each {A} (body : A → M unit) (l : list A) :
  (∀ x, appending (body x)) → appending (for_each body l).
Proof.
  intros Hbody. induction l as [|x l IH]; simpl.
  - apply (appending_ret ()).
  - apply appending_bind; auto.
Qed.

Lemma appending_for_each_enumerate {A} (body : nat → A → M unit) idx (l : list A) :
  (∀ i x, appending (body i x)) → appending (for_each_enumerate body idx l).
Proof.
  intros Hbody. revert idx. induction l as [|x l IH]; intros idx; simpl.
  - apply (appending_ret ()).
  - apply appending_bind; auto.
Qed.

(** What an appending body wrote stays in front of what follows. *)
Lemma appending_run {A} (c : M A) (self : GccStyleDumper) :
  appending c →
  ∃ w, dst_file (c self).2 = dst_file self +:+ w
       ∧ base_path (c self).2 = base_path self.
Proof.
  intros Hc. destruct self as [d b l].
  destruct (Hc b l) as (r & w & l' & Hrun).
  exists w. by rewrite Hrun.
Qed.

Section Appending.

Variable str_of_container : json → string.

Lemma appending_write text : appending (write text).
Proof. intros b l. by exists (Returned ()), text, l. Qed.

Lemma appending_write_value x : appending (write_value x).
Proof.
    destruct x; try apply (appending_raise (A := unit)). apply appending_write.
Qed.

Lemma appending_set_last l0 : appending (set_last_logical_location l0).
Proof.
    intros b l. exists (Returned ()), "", l0. intros d.
    unfold set_last_logical_location. simpl. by rewrite append_empty_r.
Qed.

Lemma appending_get_last : appending get_last_logical_location.
Proof.
    intros b l. exists (Returned l), "", l. intros d.
    unfold get_last_logical_location. simpl. by rewrite append_empty_r.
Qed.

Lemma appending_get_base : appending get_base_path.
Proof.
    intros b l. exists (Returned b), "", l. intros d.
    unfold get_base_path. simpl. by rewrite append_empty_r.
Qed.

Ltac appending_step :=
    first
      [ apply appending_bind; [|intros ?]
      | apply appending_when
      | apply appending_eval
      | apply appending_write
      | apply appending_write_value
      | apply appending_set_last
      | apply appending_get_last
      | apply appending_get_base
      | apply (appending_ret ())
      | apply appending_ret
      | apply appending_raise
      | match goal with
        | |- appending (if ?c then _ else _) => destruct c
        | |- appending (match ?x with _ => _ end) => destruct x
        end ].

Ltac appending_auto := repeat appending_step.

Lemma appending_write_logical_location l :
    appending (write_logical_location str_of_container l).
Proof. unfold write_logical_location, writeln. appending_auto. Qed.

Lemma appending_write_physical_location pl :
    appending (write_physical_location pl).
Proof. unfold write_physical_location. appending_auto. Qed.

Lemma appending_write_location loc :
    appending (write_location str_of_container loc).
Proof.
    unfold write_location. appending_auto;
      auto using appending_write_logical_location,
        appending_write_physical_location.
Qed.

Lemma appending_write_reporting_descriptor_reference rdr :
    appending (write_reporting_descriptor_reference str_of_container rdr).
Proof. unfold write_reporting_descriptor_reference. appending_auto. Qed.

Lemma appending_write_thread_flow_location idx step :
    appending (write_thread_flow_location str_of_container idx step).
Proof.
    unfold write_thread_flow_location, writeln. appending_auto;
      auto using appending_write_location.
Qed.

Lemma appending_write_thread_flow tf :
    appending (write_thread_flow str_of_container tf).
Proof.
    unfold write_thread_flow.
    apply appending_bind; [apply appending_eval | intros locations].
    apply appending_bind; [apply appending_eval | intros steps].
    apply appending_for_each_enumerate. intros.
    apply appending_write_thread_flow_location.
Qed.

Lemma appending_write_code_flow cf :
    appending (write_code_flow str_of_container cf).
Proof.
    unfold write_code_flow.
    apply appending_bind; [apply appending_eval | intros threadFlows].
    apply appending_bind; [apply appending_eval | intros threadFlow].
    apply appending_write_thread_flow.
Qed.

Lemma appending_taxa rdrs :
    appending (for_each (write_reporting_descriptor_reference str_of_container) rdrs).
Proof.
    apply appending_for_each. intros.
    apply appending_write_reporting_descriptor_reference.
Qed.

Lemma appending_dump_result_line r :
    appending (dump_result_line str_of_container r).
Proof.
    unfold dump_result_line, writeln.
    apply appending_bind; [apply appending_eval | intros has_locations].
    apply appending_bind.
    { apply appending_when.
      apply appending_bind; [apply appending_eval | intros locations].
      apply appending_bind; [apply appending_eval | intros loc].
      apply appending_write_location. }
    intros _.
    apply appending_bind; [apply appending_eval | intros has_level].
    apply appending_bind; [appending_auto | intros _].
    apply appending_bind; [apply appending_eval | intros message].
    apply appending_bind; [apply appending_eval | intros text].
    apply appending_bind; [apply appending_write | intros _].
    apply appending_bind; [apply appending_eval | intros has_taxa].
    apply appending_bind.
    { apply appending_when.
      apply appending_bind; [apply appending_eval | intros taxa].
      apply appending_bind; [apply appending_eval | intros rdrs].
      apply appending_taxa. }
    intros _. appending_auto.
Qed.

Lemma appending_dump_result_code_flow r :
    appending (dump_result_code_flow str_of_container r).
Proof.
    unfold dump_result_code_flow.
    apply appending_bind; [apply appending_eval | intros has_flows].
    apply appending_when.
    apply appending_bind; [apply appending_eval | intros codeFlows].
    apply appending_bind; [apply appending_eval | intros codeFlow].
    apply appending_write_code_flow.
Qed.

Lemma appending_dump_sarif_result r :
    appending (dump_sarif_result str_of_container r).
Proof.
    unfold dump_sarif_result. apply appending_bind; [|intros ?].
    - apply appending_dump_result_line.
    - apply appending_dump_result_code_flow.
Qed.

Lemma appending_dump_sarif_file results :
    appending (dump_sarif_file str_of_container results).
Proof.
    apply appending_for_each. intros. apply appending_dump_sarif_result.
Qed.

End Appending.

(** ** What a method body leaves alone *)

Section Preserves.

  (** [R self self']: a relation between the dumper before and after. *)
Variable R : GccStyleDumper → GccStyleDumper → Prop.
Hypothesis R_refl : ∀ self, R self self.
Hypothesis R_trans : ∀ s1 s2 s3, R s1 s2 → R s2 s3 → R s1 s3.

Definition preserves {A} (c : M A) : Prop := ∀ self, R self (c self).2.

Lemma preserves_ret {A} (a : A) : preserves (mret a : M A).
Proof. intros self. apply R_refl. Qed.

Lemma preserves_eval {A} (o : outcome A) : preserves (eval o).
Proof. intros self. apply R_refl. Qed.

Lemma preserves_bind {A B} (c : M A) (f : A → M B) :
    preserves c → (∀ a, preserves (f a)) → preserves (c ≫= f).
Proof.
    intros Hc Hf self. rewrite bind_run.
    specialize (Hc self). destruct (c self) as [[a|e] self']; simpl in Hc.
    - eapply R_trans; [exact Hc | apply Hf].
    - exact Hc.
Qed.

Lemma preserves_when (cond : bool) (body : M unit) :
    preserves body → preserves (when cond body).
Proof. destruct cond; [done|]. intros _ self. apply R_refl. Qed.

Lemma preserves_for_each {A} (body : A → M unit) (l : list A) :
    (∀ x, preserves (body x)) → preserves (for_each body l).
Proof.
    intros Hbody. induction l as [|x l IH]; simpl.
    - apply (preserves_ret ()).
    - apply preserves_bind; auto.
Qed.

End Preserves.

(** The stored logical location is the same before and after. *)
Definition same_last (self self' : GccStyleDumper) : Prop :=
  last_logical_location self' = last_logical_location self.

Definition keeps_last {A} (c : M A) : Prop := preserves same_last c.

Lemma same_last_refl self : same_last self self.
Proof. reflexivity. Qed.

Lemma same_last_trans s1 s2 s3 : same_last s1 s2 → same_last s2 s3 → same_last s1 s3.
Proof. unfold same_last. congruence. Qed.

Lemma keeps_last_write text : keeps_last (write text).
Proof. intros self. reflexivity. Qed.

Lemma keeps_last_write_value x : keeps_last (write_value x).
Proof. destruct x; intros self; reflexivity. Qed.

Lemma keeps_last_get_base : keeps_last get_base_path.
Proof. intros self. reflexivity. Qed.

Ltac keeps_last_step :=
  first
    [ apply (preserves_bind same_last same_last_trans); [|intros ?]
    | apply (preserves_when same_last same_last_refl)
    | apply (preserves_eval same_last same_last_refl)
    | apply keeps_last_write
    | apply keeps_last_write_value
    | apply keeps_last_get_base
    | apply (preserves_ret same_last same_last_refl)
    | match goal with
      | |- keeps_last (if ?c then _ else _) => destruct c
      | |- keeps_last (match ?x with _ => _ end) => destruct x
      | |- preserves same_last (if ?c then _ else _) => destruct c
      | |- preserves same_last (match ?x with _ => _ end) => destruct x
      end ].

Lemma keeps_last_write_physical_location pl :
  keeps_last (write_physical_location pl).
Proof. unfold keeps_last, write_physical_location. repeat keeps_last_step. Qed.

Lemma keeps_last_write_reporting_descriptor_reference str rdr :
  keeps_last (write_reporting_descriptor_reference str rdr).
Proof.
  unfold keeps_last, write_reporting_descriptor_reference.
  repeat keeps_last_step.
Qed.

Lemma keeps_last_taxa str rdrs :
  keeps_last (for_each (write_reporting_descriptor_reference str) rdrs).
Proof.
  apply (preserves_for_each same_last same_last_refl same_last_trans).
  intros. apply keeps_last_write_reporting_descriptor_reference.
Qed.

Lemma keeps_last_run {A} (c : M A) self r self' :
  keeps_last c → c self = (r, self') →
  last_logical_location self' = last_logical_location self.
Proof. intros Hc Hrun. specialize (Hc self). by rewrite Hrun in Hc. Qed.

(** ** The logical locations a traversal meets *)

(** The dedup rule of the specification, as a transition of the stored
    value: a logical location equal to the stored one changes nothing, any
    other one replaces it. *)
Definition dedup (stored l : json) : json :=
  if Py.eq l stored then stored else l.

(** The logical location [write_location] hands to
    [write_logical_location], if any. *)
Definition encountered_location (location : json) : list json :=
  match Py.contains "logicalLocations" location with
  | Returned true =>
      match Py.getitem location "logicalLocations" with
      | Returned logicalLocations =>
          if Py.truthy logicalLocations then
            match Py.first logicalLocations with
            | Returned l => [l]
            | Raised _ => []
            end
          else []
      | Raised _ => []
      end
  | _ => []
  end.

(** The one of a trace step. *)
Definition encountered_step (threadFlowLocation : json) : list json :=
  match Py.getitem threadFlowLocation "location" with
  | Returned location => encountered_location location
  | Raised _ => []
  end.

(** The one of the first location of a result. *)
Definition first_logical_location (result : json) : list json :=
  match Py.contains "locations" result with
  | Returned true =>
      match Py.getitem result "locations" ≫= Py.first with
      | Returned loc => encountered_location loc
      | Raised _ => []
      end
  | _ => []
  end.

(** The steps of the first thread flow of the first code flow. *)
Definition trace_steps (result : json) : list json :=
  match Py.contains "codeFlows" result with
  | Returned true =>
      match
        codeFlows ← Py.getitem result "codeFlows";
        codeFlow ← Py.first codeFlows;
        threadFlows ← Py.getitem codeFlow "threadFlows";
        threadFlow ← Py.first threadFlows;
        locations ← Py.getitem threadFlow "locations";
        Py.iter locations
      with
      | Returned steps => steps
      | Raised _ => []
      end
  | _ => []
  end.

Definition trace_logical_locations (result : json) : list json :=
  trace_steps result ≫= encountered_step.

(** All of them, in the order the dumper visits them. *)
Definition encountered (result : json) : list json :=
  first_logical_location result ++ trace_logical_locations result.

Section LastLogicalLocation.

Variable str_of_container : json → string.

Lemma write_logical_location_last l self :
  last_logical_location (write_logical_location str_of_container l self).2
  = dedup (last_logical_location self) l.
Proof.
  unfold write_logical_location, dedup.
  rewrite bind_run. cbn [get_last_logical_location].
  destruct (Py.eq l (last_logical_location self)); [done|].
  rewrite bind_run. cbn [set_last_logical_location].
  set (self1 := {| dst_file := _ |}).
  change l with (last_logical_location self1) at 3.
  apply (preserves_bind same_last same_last_trans).
  - apply (preserves_eval same_last same_last_refl).
  - intros kind. unfold writeln. repeat keeps_last_step.
Qed.

Lemma write_location_last location self :
  last_logical_location (write_location str_of_container location self).2
  = foldl dedup (last_logical_location self) (encountered_location location).
Proof.
  unfold write_location, encountered_location.
  rewrite bind_run, eval_run.
  destruct (Py.contains "logicalLocations" location) as [[|]|e]; [| |done].
  - rewrite (bind_run (when true _)), when_true, bind_run, eval_run.
    destruct (Py.getitem location "logicalLocations") as [ls|e]; [|done].
    destruct (Py.truthy ls).
    + rewrite when_true, bind_run, eval_run.
      destruct (Py.first ls) as [l|e]; [|done].
      pose proof (write_logical_location_last l self) as Hl.
      destruct (write_logical_location _ l self) as [[[]|e] self1];
        simpl in Hl; simpl; rewrite <- Hl; [|done].
      apply (preserves_bind same_last same_last_trans); [|intros ?].
      * apply (preserves_eval same_last same_last_refl).
      * apply (preserves_when same_last same_last_refl).
        apply (preserves_bind same_last same_last_trans); [|intros ?].
        -- apply (preserves_eval same_last same_last_refl).
        -- apply keeps_last_write_physical_location.
    + rewrite when_false. simpl foldl.
      apply (preserves_bind same_last same_last_trans); [|intros ?].
      * apply (preserves_eval same_last same_last_refl).
      * apply (preserves_when same_last same_last_refl).
        apply (preserves_bind same_last same_last_trans); [|intros ?].
        -- apply (preserves_eval same_last same_last_refl).
        -- apply keeps_last_write_physical_location.
  - rewrite (bind_run (when false _)), when_false. simpl foldl.
    apply (preserves_bind same_last same_last_trans); [|intros ?].
    + apply (preserves_eval same_last same_last_refl).
    + apply (preserves_when same_last same_last_refl).
      apply (preserves_bind same_last same_last_trans); [|intros ?].
      * apply (preserves_eval same_last same_last_refl).
      * apply keeps_last_write_physical_location.
Qed.

Lemma eval_returned_inv {A} (o : outcome A) self a self' :
  eval o self = (Returned a, self') → o = Returned a ∧ self' = self.
Proof. unfold eval. by intros [= -> ->]. Qed.

Lemma write_thread_flow_location_last idx step self :
  last_logical_location
    (write_thread_flow_location str_of_container idx step self).2
  = foldl dedup (last_logical_location self) (encountered_step step).
Proof.
  unfold write_thread_flow_location, encountered_step.
  rewrite bind_run, eval_run.
  destruct (Py.getitem step "location") as [location|e]; [|done].
  rewrite bind_run.
  pose proof (write_location_last location self) as Hl.
  destruct (write_location _ location self) as [[[]|e] self1];
    simpl in Hl; rewrite <- Hl; [|done].
  unfold writeln. repeat keeps_last_step.
Qed.

Lemma trace_last steps : ∀ idx self self',
  for_each_enumerate (write_thread_flow_location str_of_container) idx steps self
  = (Returned (), self') →
  last_logical_location self'
  = foldl dedup (last_logical_location self) (steps ≫= encountered_step).
Proof.
  induction steps as [|step steps IH]; intros idx self self' Hrun.
  - by injection Hrun as <-.
  - cbn [for_each_enumerate] in Hrun.
    apply bind_returned_inv in Hrun as ([] & self1 & Hstep & Hrest).
    rewrite bind_cons, foldl_app.
    pose proof (write_thread_flow_location_last idx step self) as Hl.
    rewrite Hstep in Hl. simpl in Hl. rewrite <- Hl. eauto.
Qed.

(** The statements of [dump_sarif_result] after the location prefix. *)
Lemma keeps_last_after_location result :
  keeps_last
    (has_level ← eval (Py.contains "level" result);
     when has_level
       (level ← eval (Py.getitem result "level");
        write (format_s str_of_container level +:+ ": "));;
     message ← eval (Py.getitem result "message");
     text ← eval (Py.getitem message "text");
     write (format_s str_of_container text);;
     has_taxa ← eval (Py.contains "taxa" result);
     when has_taxa
       (taxa ← eval (Py.getitem result "taxa");
        rdrs ← eval (Py.iter taxa);
        for_each (write_reporting_descriptor_reference str_of_container) rdrs);;
     has_rule ← eval (Py.contains "ruleId" result);
     when has_rule
       (ruleId ← eval (Py.getitem result "ruleId");
        write (" [" +:+ format_s str_of_container ruleId +:+ "]"));;
     writeln).
Proof.
  unfold keeps_last, writeln.
  repeat first [apply keeps_last_taxa | keeps_last_step].
Qed.

Lemma dump_result_line_last result self :
  last_logical_location (dump_result_line str_of_container result self).2
  = foldl dedup (last_logical_location self) (first_logical_location result).
Proof.
  unfold dump_result_line, first_logical_location.
  rewrite bind_run, eval_run.
  destruct (Py.contains "locations" result) as [[|]|e]; [| |done].
  - rewrite (bind_run (when true _)), when_true, bind_run, eval_run.
    destruct (Py.getitem result "locations") as [locations|e]; [|done].
    rewrite bind_run, eval_run. cbn [mbind outcome_mbind outcome_bind].
    destruct (Py.first locations) as [loc|e]; [|done].
    pose proof (write_location_last loc self) as Hl.
    destruct (write_location _ loc self) as [[[]|e] self1];
      simpl in Hl; rewrite <- Hl; [|done].
    apply keeps_last_after_location.
  - rewrite (bind_run (when false _)), when_false.
    apply keeps_last_after_location.
Qed.

Lemma dump_result_code_flow_last result self self' :
  dump_result_code_flow str_of_container result self = (Returned (), self') →
  last_logical_location self'
  = foldl dedup (last_logical_location self) (trace_logical_locations result).
Proof.
  unfold dump_result_code_flow, trace_logical_locations, trace_steps.
  intros Hrun.
  apply bind_returned_inv in Hrun as (has_flows & ? & [E0 ->]%eval_returned_inv & Hrun).
  rewrite E0.
  destruct has_flows; [|by injection Hrun as <-].
  rewrite when_true in Hrun.
  apply bind_returned_inv in Hrun as (codeFlows & ? & [E1 ->]%eval_returned_inv & Hrun).
  apply bind_returned_inv in Hrun as (codeFlow & ? & [E2 ->]%eval_returned_inv & Hrun).
  unfold write_code_flow in Hrun.
  apply bind_returned_inv in Hrun as (threadFlows & ? & [E3 ->]%eval_returned_inv & Hrun).
  apply bind_returned_inv in Hrun as (threadFlow & ? & [E4 ->]%eval_returned_inv & Hrun).
  unfold write_thread_flow in Hrun.
  apply bind_returned_inv in Hrun as (locations & ? & [E5 ->]%eval_returned_inv & Hrun).
  apply bind_returned_inv in Hrun as (steps & ? & [E6 ->]%eval_returned_inv & Hrun).
  rewrite E1; cbn [mbind outcome_mbind outcome_bind].
  rewrite E2; cbn [mbind outcome_mbind outcome_bind].
  rewrite E3; cbn [mbind outcome_mbind outcome_bind].
  rewrite E4; cbn [mbind outcome_mbind outcome_bind].
  rewrite E5; cbn [mbind outcome_mbind outcome_bind].
  rewrite E6.
  by apply trace_last in Hrun.
Qed.

Lemma dump_sarif_result_last result self self' :
  dump_sarif_result str_of_container result self = (Returned (), self') →
  last_logical_location self'
  = foldl dedup (last_logical_location self) (encountered result).
Proof.
  unfold dump_sarif_result, encountered. intros Hrun.
  apply bind_returned_inv in Hrun as ([] & self1 & Hline & Hflow).
  rewrite foldl_app.
  pose proof (dump_result_line_last result self) as Hl.
  rewrite Hline in Hl. simpl in Hl. rewrite <- Hl.
  by apply dump_result_code_flow_last.
Qed.

Lemma dump_sarif_file_last results : ∀ self self',
  dump_sarif_file str_of_container results self = (Returned (), self') →
  last_logical_location self'
  = foldl dedup (last_logical_location self) (results ≫= encountered).
Proof.
  unfold dump_sarif_file.
  induction results as [|result results IH]; intros self self' Hrun.
  - by injection Hrun as <-.
  - cbn [for_each] in Hrun.
    apply bind_returned_inv in Hrun as ([] & self1 & Hresult & Hrest).
    rewrite bind_cons, foldl_app.
    apply dump_sarif_result_last in Hresult. rewrite <- Hresult. eauto.
Qed.

End LastLogicalLocation.

(** ** Paths below a directory *)

(** The string form of a [Path] naming a directory other than the current
    one and the root: it is what the parser prints, and does not end with a
    slash. *)
Definition directory (base : string) : Prop :=
  Pathlib.normal base = base ∧ base ≠ "." ∧ Pathlib.ends_with_slash base = false.

Lemma split_nonempty s : Pathlib.split s ≠ [].
Proof.
  destruct s as [|c s]; [done|]. cbn [Pathlib.split].
  destruct (decide (c = "/"%char)); [done|].
  by destruct (Pathlib.split s).
Qed.

Lemma split_app_slash a b :
  Pathlib.split (a +:+ "/" +:+ b) = (Pathlib.split a ++ Pathlib.split b)%list.
Proof.
  induction a as [|c a IH].
  - done.
  - rewrite append_cons. cbn [Pathlib.split].
    destruct (decide (c = "/"%char)); rewrite IH; [done|].
    pose proof (split_nonempty a). by destruct (Pathlib.split a).
Qed.

Lemma parts_app_slash a b :
  Pathlib.parts (a +:+ "/" +:+ b) = (Pathlib.parts a ++ Pathlib.parts b)%list.
Proof. unfold Pathlib.parts. by rewrite split_app_slash, filter_app. Qed.

Lemma concat_cons_cons sep (y z : string) (l : list string) :
  String.concat sep (y :: z :: l) = y +:+ sep +:+ String.concat sep (z :: l).
Proof. reflexivity. Qed.

Lemma concat_snoc sep (l : list string) x :
  l ≠ [] → String.concat sep (l ++ [x])%list = String.concat sep l +:+ sep +:+ x.
Proof.
  induction l as [|y l IH]; [done|]. intros _.
  destruct l as [|z l]; [done|].
  change ((y :: z :: l) ++ [x])%list with (y :: z :: (l ++ [x]))%list.
  rewrite concat_cons_cons.
  change (z :: (l ++ [x]))%list with ((z :: l) ++ [x])%list.
  rewrite IH by done. rewrite (concat_cons_cons sep y z l).
  by rewrite !append_assoc.
Qed.

Lemma prefix_nil s : String.prefix "" s = true.
Proof. by destruct s. Qed.

Lemma prefix_cons_eq c p s :
  String.prefix (String c p) (String c s) = String.prefix p s.
Proof. cbn [String.prefix]. by destruct (ascii_dec c c). Qed.

Lemma prefix_cons_ne c c' p s :
  c ≠ c' → String.prefix (String c p) (String c' s) = false.
Proof. intros. cbn [String.prefix]. by destruct (ascii_dec c c'). Qed.

Lemma root_app_slash base f :
  base ≠ "" → Pathlib.ends_with_slash base = false →
  Pathlib.root (base +:+ "/" +:+ f) = Pathlib.root base.
Proof.
  intros Hne Hend. unfold Pathlib.root.
  destruct base as [|c1 base]; [done|]. rewrite append_cons.
  destruct (decide (c1 = "/"%char)) as [->|Hc1];
    [|by rewrite !(prefix_cons_ne "/"%char c1)].
  rewrite !prefix_cons_eq.
  destruct base as [|c2 base]; [done|]. rewrite append_cons.
  destruct (decide (c2 = "/"%char)) as [->|Hc2];
    [|by rewrite !(prefix_cons_ne "/"%char c2)].
  rewrite !prefix_cons_eq.
  destruct base as [|c3 base]; [done|]. rewrite append_cons.
  destruct (decide (c3 = "/"%char)) as [->|Hc3];
    [|by rewrite !(prefix_cons_ne "/"%char c3)].
  by rewrite !prefix_cons_eq, !prefix_nil.
Qed.

Lemma normal_nonempty p : Pathlib.normal p ≠ "".
Proof. unfold Pathlib.normal. by case_bool_decide. Qed.

Lemma Path_in_directory base f :
  directory base → String.prefix "/" f = false → Pathlib.parts f = [f] →
  Pathlib.Path base f = base +:+ "/" +:+ f.
Proof.
  intros (Hnormal & Hdot & Hend) Hrel Hf.
  assert (base ≠ "") as Hne.
  { intros ->. by apply (normal_nonempty ""). }
  unfold Pathlib.Path, Pathlib.join. rewrite Hrel, Hend.
  rewrite bool_decide_eq_false_2 by done. cbn [orb].
  unfold Pathlib.normal.
  rewrite root_app_slash, parts_app_slash, Hf by done.
  unfold Pathlib.normal in Hnormal.
  destruct (Pathlib.parts base) as [|p ps] eqn:Hparts.
  - exfalso. unfold Pathlib.root in Hnormal.
    destruct (negb (String.prefix "/" base));
      [|destruct (negb (String.prefix "//" base) || String.prefix "///" base)];
      vm_compute in Hnormal; subst base; done.
  - rewrite concat_snoc by done. rewrite <- !append_assoc.
    case_bool_decide as Hr; [congruence|]. rewrite Hnormal.
    rewrite append_assoc.
    case_bool_decide as Hr'; [|done].
    destruct base; [done|]. by rewrite append_cons in Hr'.
Qed.

(** ** Running a method on a document whose fields are known *)

Ltac run_unfold :=
  unfold dump_sarif_file, dump_sarif_result, dump_result_line,
    dump_result_code_flow, write_code_flow, write_thread_flow,
    write_thread_flow_location, write_location, write_logical_location,
    write_physical_location, write_reporting_descriptor_reference, writeln,
    write_value, write, get_base_path, get_last_logical_location,
    set_last_logical_location, raise, eval, when,
    mbind, mret, M_mbind, M_mret, M_bind, M_ret.

Ltac run :=
  repeat first
    [ progress run_unfold
    | progress cbn beta iota
    | progress cbn [Py.first Py.format_i Py.truthy Py.iter for_each
                    for_each_enumerate dst_file base_path
                    last_logical_location]
    | match goal with
      | H : ?m !! ?k = Some ?v |- context [Py.contains ?k (JObj ?m)] =>
          rewrite (contains_Some k m v H)
      | H : ?m !! ?k = None |- context [Py.contains ?k (JObj ?m)] =>
          rewrite (contains_None k m H)
      | H : ?m !! ?k = Some ?v |- context [Py.getitem (JObj ?m) ?k] =>
          rewrite (getitem_Some k m v H)
      | H : ?m !! ?k = None |- context [Py.getitem (JObj ?m) ?k] =>
          rewrite (getitem_None k m H)
      end ].

(** Both sides are the same text, up to the grouping of the appends. *)
Ltac same_text :=
  unfold append_dst;
  cbn [format_s dst_file base_path last_logical_location];
  rewrite ?append_assoc; reflexivity.

(** * The claims *)

(** ** C1: the end-to-end scenario *)

(** C1 (amended).  A result with level "error", message text "null
    pointer dereference", a first location at uri "foo.c", line 42, column
    5, and rule id "null-deref" is rendered as the single line
    [<path>:42:5: error: null pointer dereference [null-deref]] and a
    newline, where [<path>] is [Path(base_path, "foo.c")]: that is
    [<base_path>/foo.c] when the base path names a directory other than the
    current one and the root, ["foo.c"] alone when the base path is ["."],
    as [main] passes for a document at the top of a relative root, and
    ["/foo.c"] when it is ["/"].  The parts come in the fixed order:
    location prefix, level, message, taxa annotations, rule id, newline, and
    then the code-flow block. *)
Theorem C1_end_to_end str (m lm pm am rm mm : gmap string json) rest self :
  m !! "locations" = Some (JArr (JObj lm :: rest)) →
  lm !! "logicalLocations" = None →
  lm !! "physicalLocation" = Some (JObj pm) →
  pm !! "artifactLocation" = Some (JObj am) →
  am !! "uri" = Some (JStr "foo.c") →
  pm !! "region" = Some (JObj rm) →
  rm !! "startLine" = Some (JNum 42) →
  rm !! "startColumn" = Some (JNum 5) →
  m !! "level" = Some (JStr "error") →
  m !! "message" = Some (JObj mm) →
  mm !! "text" = Some (JStr "null pointer dereference") →
  m !! "ruleId" = Some (JStr "null-deref") →
  (m !! "taxa" = None → m !! "codeFlows" = None →
   dump_sarif_result str (JObj m) self
   = (Returned (),
      append_dst
        (Pathlib.Path (base_path self) "foo.c"
         +:+ ":42:5: error: null pointer dereference [null-deref]"
         +:+ Py.newline) self))
  ∧ (directory (base_path self) →
     Pathlib.Path (base_path self) "foo.c" = base_path self +:+ "/foo.c")
  ∧ (base_path self = "." → Pathlib.Path (base_path self) "foo.c" = "foo.c")
  ∧ (base_path self = "/" → Pathlib.Path (base_path self) "foo.c" = "/foo.c")
  ∧ (∀ rdrs annotations,
       m !! "taxa" = Some (JArr rdrs) →
       (∀ s, for_each (write_reporting_descriptor_reference str) rdrs s
             = (Returned (), append_dst annotations s)) →
       dump_sarif_result str (JObj m) self
       = dump_result_code_flow str (JObj m)
           (append_dst
              (Pathlib.Path (base_path self) "foo.c"
               +:+ ":42:5: error: null pointer dereference"
               +:+ annotations +:+ " [null-deref]" +:+ Py.newline) self)).
Proof.
  intros Hlocs Hlogical Hphysical Hartifact Huri Hregion Hline Hcolumn
    Hlevel Hmessage Htext Hrule.
  split; [|split; [|split; [|split]]].
  - intros Htaxa Hflows. run. same_text.
  - intros Hdir. by apply Path_in_directory.
  - by intros ->.
  - by intros ->.
  - intros rdrs annotations Htaxa Hloop.
    unfold dump_sarif_result, dump_result_line.
    set (body := write_reporting_descriptor_reference str) in *.
    clearbody body. run. rewrite Hloop. run.
    unfold append_dst. cbn [format_s dst_file base_path last_logical_location].
    by rewrite !append_assoc.
Qed.

(** ** C2: suppression of a repeated function header *)

Lemma encountered_location_inv location l :
  encountered_location location = [l] →
  ∃ lm ls, location = JObj lm ∧ lm !! "logicalLocations" = Some ls
           ∧ Py.truthy ls = true ∧ Py.first ls = Returned l.
Proof.
  unfold encountered_location.
  destruct (Py.contains "logicalLocations" location) as [[|]|] eqn:Hin; [|done..].
  destruct (Py.getitem location "logicalLocations") as [ls|] eqn:Hget; [|done].
  apply getitem_returned_inv in Hget as (lm & -> & Hls).
  destruct (Py.truthy ls) eqn:Htruthy; [|done].
  destruct (Py.first ls) as [l'|] eqn:Hfirst; [|done].
  intros [= ->]. eauto 10.
Qed.

Lemma first_inv x v : Py.first x = Returned v →
  (∃ rest, x = JArr (v :: rest)) ∨ (∃ s, v = JStr s).
Proof.
  destruct x as [| | |s|l|]; try done.
  - destruct s; [done|]. intros [= <-]. eauto.
  - destruct l; [done|]. intros [= <-]. eauto.
Qed.

Lemma first_logical_location_inv result l :
  first_logical_location result = [l] →
  ∃ m lm rest ls,
    result = JObj m ∧ m !! "locations" = Some (JArr (JObj lm :: rest))
    ∧ lm !! "logicalLocations" = Some ls
    ∧ Py.truthy ls = true ∧ Py.first ls = Returned l.
Proof.
  unfold first_logical_location.
  destruct (Py.contains "locations" result) as [[|]|] eqn:Hin; [|done..].
  destruct (Py.getitem result "locations") as [locs|] eqn:Hget; [|done].
  apply getitem_returned_inv in Hget as (m & -> & Hlocs).
  cbn [mbind outcome_mbind outcome_bind].
  destruct (Py.first locs) as [loc|] eqn:Hfirst; [|done].
  intros (lm & ls & -> & Hls & Htruthy & Hl)%encountered_location_inv.
  apply first_inv in Hfirst as [[rest ->]|[s [=]]].
  eauto 10.
Qed.

Lemma write_logical_location_same str l self :
  Py.eq l (last_logical_location self) = true →
  write_logical_location str l self = (Returned (), self).
Proof. intros Heq. run. by rewrite Heq. Qed.

Lemma write_logical_location_new str l kind name self :
  Py.eq l (last_logical_location self) = false →
  Py.getitem l "kind" = Returned kind →
  Py.eq kind (JStr "function") = true →
  Py.getitem l "fullyQualifiedName" = Returned name →
  write_logical_location str l self
  = (Returned (),
     {| dst_file := dst_file self +:+ "In function '" +:+ format_s str name
                    +:+ "':" +:+ Py.newline;
        base_path := base_path self;
        last_logical_location := l |}).
Proof.
  intros Hne Hkind Hfunction Hname. run.
  rewrite Hne, Hkind. run. rewrite Hfunction, Hname. run.
  by rewrite !append_assoc.
Qed.

Lemma dedup_eq stored l x :
  Py.eq l x = true → Py.eq (dedup stored l) x = true.
Proof.
  intros Hl. unfold dedup. destruct (Py.eq l stored) eqn:Hs; [|done].
  rewrite py_eq_sym in Hs. by eapply py_eq_trans.
Qed.

Lemma foldl_dedup_eq ls : ∀ stored x,
  Py.eq stored x = true → Forall (λ l, Py.eq l x = true) ls →
  Py.eq (foldl dedup stored ls) x = true.
Proof.
  induction ls as [|l ls IH]; intros stored x Hstored Hall; [done|].
  apply Forall_cons in Hall as [Hl Hall]. cbn [foldl].
  apply IH; [by apply dedup_eq | done].
Qed.

(** The result with the logical locations of its first location removed. *)
Definition drop_logical (result : json) : json :=
  match result with
  | JObj m =>
      match m !! "locations" with
      | Some (JArr (JObj lm :: rest)) =>
          JObj (<["locations" := JArr (JObj (delete "logicalLocations" lm) :: rest)]> m)
      | _ => result
      end
  | _ => result
  end.

Lemma contains_ext key (m m' : gmap string json) :
  m' !! key = m !! key → Py.contains key (JObj m') = Py.contains key (JObj m).
Proof. intros H. cbn [Py.contains]. by rewrite H. Qed.

Lemma getitem_ext key (m m' : gmap string json) :
  m' !! key = m !! key → Py.getitem (JObj m') key = Py.getitem (JObj m) key.
Proof. intros H. cbn [Py.getitem]. by rewrite H. Qed.

Lemma first_logical_location_drop_logical result l :
  first_logical_location result = [l] →
  first_logical_location (drop_logical result) = [].
Proof.
  intros (m & lm & rest & ls & -> & Hlocs & _)%first_logical_location_inv.
  unfold drop_logical. rewrite Hlocs.
  unfold first_logical_location, encountered_location.
  erewrite contains_Some, getitem_Some by apply lookup_insert_eq.
  cbn [Py.first mbind outcome_mbind outcome_bind].
  by rewrite contains_None by apply lookup_delete_eq.
Qed.

(** Once the logical location of the first location has been handled, the
    result is rendered as if it had none. *)
Lemma dump_sarif_result_after_logical str result l self self' :
  first_logical_location result = [l] →
  write_logical_location str l self = (Returned (), self') →
  dump_sarif_result str result self
  = dump_sarif_result str (drop_logical result) self'.
Proof.
  intros (m & lm & rest & ls & -> & Hlocs & Hls & Htruthy & Hl)%first_logical_location_inv.
  unfold drop_logical. rewrite Hlocs.
  set (lm' := delete "logicalLocations" lm).
  set (m' := <["locations" := JArr (JObj lm' :: rest)]> m).
  assert (m' !! "locations" = Some (JArr (JObj lm' :: rest))) as Hlocs'
    by apply lookup_insert_eq.
  assert (lm' !! "logicalLocations" = None) as Hls' by apply lookup_delete_eq.
  assert (∀ key, key ≠ "locations" → m' !! key = m !! key) as Hm'
    by (intros; by apply lookup_insert_ne).
  assert (lm' !! "physicalLocation" = lm !! "physicalLocation") as Hlm'
    by by apply lookup_delete_ne.
  clearbody m' lm'.
  unfold dump_sarif_result, dump_result_line, dump_result_code_flow,
    write_location.
  set (handle := write_logical_location str). clearbody handle.
  intros Hhandle.
  rewrite !(contains_ext _ m m'), !(getitem_ext _ m m') by (apply Hm'; done).
  run. rewrite Htruthy, Hl. run. rewrite Hhandle. run.
  rewrite (contains_ext _ lm lm'), (getitem_ext _ lm lm') by done.
  reflexivity.
Qed.

(** *** Documents used in the examples *)

(** A dict literal. *)
Definition obj (fields : list (string * json)) : json :=
  JObj (list_to_map fields).

(** The text made of the given lines, each ended by a newline. *)
Definition lines (l : list string) : string :=
  foldr (λ line rest, line +:+ Py.newline +:+ rest) "" l.

(** [str] of a list or dict in the examples; none of them prints one. *)
Definition example_str (x : json) : string := "<container>".

Definition function (name : string) : json :=
  obj [("kind", JStr "function"); ("fullyQualifiedName", JStr name)].

Definition message (text : string) : json := obj [("text", JStr text)].

(** A trace step in the given function, with the given text. *)
Definition step_in (name text : string) : json :=
  obj [("location",
        obj [("logicalLocations", JArr [function name]);
             ("message", message text)])].

(** A result in the given function, with the given text and trace. *)
Definition result_in (name text : string) (steps : list json) : json :=
  obj [("message", message text);
       ("locations", JArr [obj [("logicalLocations", JArr [function name])]]);
       ("codeFlows",
        JArr [obj [("threadFlows", JArr [obj [("locations", JArr steps)]])]])].

(** C2, as stated, fails: the first result's trace passes through another
    function [g], which becomes the stored logical location, so the second
    result, in the same function [f] as the first, writes its header again. *)
Lemma C2_counterexample :
  let first := result_in "f" "first" [step_in "g" "step"] in
  let second := result_in "f" "second" [] in
  let after_first :=
    {| dst_file := lines ["In function 'f':"; "first";
                          "In function 'g':"; "(1) step"];
       base_path := ".";
       last_logical_location := function "g" |} in
  first_logical_location first = [function "f"]
  ∧ first_logical_location second = [function "f"]
  ∧ Py.eq (function "f") (function "f") = true
  ∧ dump_sarif_result example_str first (init "" ".")
    = (Returned (), after_first)
  ∧ dump_sarif_result example_str second after_first
    = (Returned (),
       {| dst_file := dst_file after_first
                      +:+ lines ["In function 'f':"; "second"];
          base_path := ".";
          last_logical_location := function "f" |}).
Proof. cbv zeta. repeat split; vm_compute; reflexivity. Qed.

(** C2 (amended).  For two consecutive results whose first logical
    locations are value-equal, and where every logical location met in the
    first result's trace is value-equal to them too (in particular when it
    has no code flow), the second result writes no "In function" header for
    its location: it is rendered exactly as if its first location had no
    logical locations.  A result whose first logical location differs from
    the stored one, has kind "function" and a fullyQualifiedName writes the
    header line first, stores the logical location, and goes on the same
    way. *)
Theorem C2_header_dedup str r1 r2 l1 l2 self self1 :
  first_logical_location r1 = [l1] →
  first_logical_location r2 = [l2] →
  Py.eq l1 l2 = true →
  Forall (λ l, Py.eq l l1 = true) (trace_logical_locations r1) →
  dump_sarif_result str r1 self = (Returned (), self1) →
  (first_logical_location (drop_logical r2) = []
   ∧ dump_sarif_result str r2 self1
     = dump_sarif_result str (drop_logical r2) self1)
  ∧ (∀ r3 l3 kind name self2,
       first_logical_location r3 = [l3] →
       Py.eq l3 (last_logical_location self2) = false →
       Py.getitem l3 "kind" = Returned kind →
       Py.eq kind (JStr "function") = true →
       Py.getitem l3 "fullyQualifiedName" = Returned name →
       dump_sarif_result str r3 self2
       = dump_sarif_result str (drop_logical r3)
           {| dst_file := dst_file self2 +:+ "In function '"
                          +:+ format_s str name +:+ "':" +:+ Py.newline;
              base_path := base_path self2;
              last_logical_location := l3 |}).
Proof.
  intros Hr1 Hr2 Heq Htrace Hrun. split; [split|].
  - by eapply first_logical_location_drop_logical.
  - eapply dump_sarif_result_after_logical; [done|].
    apply write_logical_location_same.
    apply dump_sarif_result_last in Hrun. rewrite Hrun.
    unfold encountered. rewrite Hr1. cbn [app foldl].
    rewrite py_eq_sym. eapply py_eq_trans; [|exact Heq].
    apply foldl_dedup_eq; [|done]. apply dedup_eq, py_eq_refl.
  - intros r3 l3 kind name self2 Hr3 Hne Hkind Hfunction Hname.
    eapply dump_sarif_result_after_logical; [done|].
    by eapply write_logical_location_new.
Qed.

Lemma C2_header_dedup_witness :
  let first := result_in "f" "first" [step_in "f" "step"] in
  let second := result_in "f" "second" [] in
  let after_first :=
    {| dst_file := lines ["In function 'f':"; "first"; "(1) step"];
       base_path := ".";
       last_logical_location := function "f" |} in
  dump_sarif_result example_str second after_first
  = dump_sarif_result example_str (drop_logical second) after_first.
Proof.
  intros first second after_first.
  refine (proj2 (proj1 (C2_header_dedup example_str first second
                          (function "f") (function "f") (init "" ".")
                          after_first _ _ _ _ _))).
  - reflexivity.
  - reflexivity.
  - reflexivity.
  - vm_compute. repeat constructor.
  - vm_compute. reflexivity.
Defined.

(** ** C3: the one piece of state *)

Lemma write_logical_location_other_kind str l kind self :
  Py.eq l (last_logical_location self) = false →
  Py.getitem l "kind" = Returned kind →
  Py.eq kind (JStr "function") = false →
  write_logical_location str l self
  = (Returned (),
     {| dst_file := dst_file self;
        base_path := base_path self;
        last_logical_location := l |}).
Proof.
  intros Hne Hkind Hother. run. rewrite Hne, Hkind. run. by rewrite Hother.
Qed.

(** C3.  The stored logical location is the only state of the engine.  A
    fresh dumper has none.  Handling a logical location leaves the stored
    value alone when it equals it and stores it otherwise, whatever its kind
    and whether or not a header is written; a logical location of another
    kind than "function" is stored without any output.  After a document has
    been rendered, the stored value is the result of that rule applied, in
    traversal order, to the logical locations of the results' first locations
    and of their trace steps.  Nothing else is kept: the base path never
    changes, and the sink is only appended to, what it holds having no effect
    on what is written next. *)
Theorem C3_last_logical_location str :
  (∀ dst base, last_logical_location (init dst base) = JNull)
  ∧ (∀ l self,
       last_logical_location (write_logical_location str l self).2
       = dedup (last_logical_location self) l)
  ∧ (∀ l kind self,
       Py.eq l (last_logical_location self) = false →
       Py.getitem l "kind" = Returned kind →
       Py.eq kind (JStr "function") = false →
       write_logical_location str l self
       = (Returned (),
          {| dst_file := dst_file self;
             base_path := base_path self;
             last_logical_location := l |}))
  ∧ (∀ results self self',
       dump_sarif_file str results self = (Returned (), self') →
       last_logical_location self'
       = foldl dedup (last_logical_location self) (results ≫= encountered))
  ∧ (∀ results, appending (dump_sarif_file str results)).
Proof.
  split; [done|]. split; [apply write_logical_location_last|].
  split; [apply write_logical_location_other_kind|].
  split; [apply dump_sarif_file_last|apply appending_dump_sarif_file].
Qed.

Lemma C3_last_logical_location_witness :
  let document :=
    [result_in "f" "first" [step_in "g" "step"]; result_in "f" "second" []] in
  last_logical_location
    (dump_sarif_file example_str document (init "" ".")).2
  = foldl dedup JNull [function "f"; function "g"; function "f"].
Proof.
  intros document.
  refine (proj1 (proj2 (proj2 (proj2 (C3_last_logical_location example_str))))
            document (init "" ".") _ _).
  vm_compute. reflexivity.
Defined.

(** ** C7: an empty list of logical locations *)

(** C7.  A location whose [logicalLocations] is an empty list is handled
    exactly as the same location without the key: the logical-location step
    writes nothing, raises nothing, and the stored logical location is
    unchanged. *)
Theorem C7_empty_logical_locations str (lm : gmap string json) self :
  lm !! "logicalLocations" = Some (JArr []) →
  write_location str (JObj lm) self
  = write_location str (JObj (delete "logicalLocations" lm)) self
  ∧ last_logical_location (write_location str (JObj lm) self).2
    = last_logical_location self.
Proof.
  intros Hempty. split.
  - set (lm' := delete "logicalLocations" lm).
    assert (lm' !! "logicalLocations" = None) as Hnone
      by apply lookup_delete_eq.
    assert (lm' !! "physicalLocation" = lm !! "physicalLocation") as Hsame
      by by apply lookup_delete_ne.
    clearbody lm'. unfold write_location. run.
    by rewrite (contains_ext _ lm lm'), (getitem_ext _ lm lm').
  - rewrite write_location_last. unfold encountered_location.
    by rewrite (contains_Some _ _ _ Hempty), (getitem_Some _ _ _ Hempty).
Qed.

Lemma C7_empty_logical_locations_witness :
  let lm : gmap string json :=
    list_to_map [("logicalLocations", JArr []); ("message", message "m")] in
  write_location example_str (JObj lm) (init "" ".")
  = write_location example_str (JObj (delete "logicalLocations" lm)) (init "" ".")
  ∧ last_logical_location (write_location example_str (JObj lm) (init "" ".")).2
    = last_logical_location (init "" ".").
Proof.
  intros lm. apply (C7_empty_logical_locations example_str lm (init "" ".")).
  reflexivity.
Defined.

(** ** C8: two dumpers render a document alike *)

(** C8.  Two dumpers constructed for the same base path, whatever their
    sinks already hold, end the rendering of a document with the same
    outcome, having written the same text and storing the same logical
    location: what is written depends on the document, the base path and
    the state of the instance only. *)
Theorem C8_deterministic str document base dst1 dst2 :
  ∃ outcome written last,
    dump_sarif_file str document (init dst1 base)
    = (outcome,
       {| dst_file := dst1 +:+ written; base_path := base;
          last_logical_location := last |})
    ∧ dump_sarif_file str document (init dst2 base)
      = (outcome,
         {| dst_file := dst2 +:+ written; base_path := base;
            last_logical_location := last |}).
Proof.
  destruct (appending_dump_sarif_file str document base JNull)
    as (outcome & written & last & Hrun).
  exists outcome, written, last. split; apply Hrun.
Qed.

(** ** C9: empty [locations], [codeFlows] and [threadFlows] *)

(** C9.  An empty [locations] list is not taken as absent: the result's
    first statement raises [IndexError], before anything is written.  An
    empty [codeFlows] list raises [IndexError] once the result's line has
    been written.  A code flow without [threadFlows] raises [KeyError], and
    one whose [threadFlows] is empty raises [IndexError]. *)
Theorem C9_empty_sequences str :
  (∀ (m : gmap string json) self,
     m !! "locations" = Some (JArr []) →
     dump_sarif_result str (JObj m) self = (Raised IndexError, self))
  ∧ (∀ (m : gmap string json) self self',
       m !! "codeFlows" = Some (JArr []) →
       dump_result_line str (JObj m) self = (Returned (), self') →
       dump_sarif_result str (JObj m) self = (Raised IndexError, self'))
  ∧ (∀ (cf : gmap string json) self,
       cf !! "threadFlows" = None →
       write_code_flow str (JObj cf) self
       = (Raised (KeyError (JStr "threadFlows")), self))
  ∧ (∀ (cf : gmap string json) self,
       cf !! "threadFlows" = Some (JArr []) →
       write_code_flow str (JObj cf) self = (Raised IndexError, self)).
Proof.
  split; [|split; [|split]].
  - intros m self Hlocs. by run.
  - intros m self self' Hflows Hline.
    unfold dump_sarif_result. rewrite (bind_returned _ _ _ _ _ Hline).
    by run.
  - intros cf self Hnone. by run.
  - intros cf self Hempty. by run.
Qed.

Lemma C9_empty_sequences_witness :
  dump_sarif_result example_str
    (obj [("message", message "m"); ("locations", JArr [])]) (init "" ".")
  = (Raised IndexError, init "" ".")
  ∧ dump_sarif_result example_str
      (obj [("message", message "m"); ("codeFlows", JArr [])]) (init "" ".")
    = (Raised IndexError, init ("m" +:+ Py.newline) ".").
Proof.
  split.
  - apply (proj1 (C9_empty_sequences example_str)). reflexivity.
  - apply (proj1 (proj2 (C9_empty_sequences example_str))); reflexivity.
Defined.

(** ** C10: what a physical location must carry *)

(** C10.  [artifactLocation], its [uri] and [region] are subscripted
    without a test: a physical location lacking one of them raises
    [KeyError], whatever else it carries, and nothing is written.  Only
    [startColumn] is tested for: without it the prefix is
    [<path>:<line>: ]. *)
Theorem C10_physical_location_fields :
  (∀ (pm : gmap string json) self,
     pm !! "artifactLocation" = None →
     write_physical_location (JObj pm) self
     = (Raised (KeyError (JStr "artifactLocation")), self))
  ∧ (∀ (pm am : gmap string json) self,
       pm !! "artifactLocation" = Some (JObj am) →
       am !! "uri" = None →
       write_physical_location (JObj pm) self
       = (Raised (KeyError (JStr "uri")), self))
  ∧ (∀ (pm am : gmap string json) uri self,
       pm !! "artifactLocation" = Some (JObj am) →
       am !! "uri" = Some uri →
       pm !! "region" = None →
       write_physical_location (JObj pm) self
       = (Raised (KeyError (JStr "region")), self))
  ∧ (∀ (pm am rm : gmap string json) filename startLine line self,
       pm !! "artifactLocation" = Some (JObj am) →
       am !! "uri" = Some (JStr filename) →
       pm !! "region" = Some (JObj rm) →
       rm !! "startLine" = Some startLine →
       Py.format_i startLine = Returned line →
       rm !! "startColumn" = None →
       write_physical_location (JObj pm) self
       = (Returned (),
          append_dst (Pathlib.Path (base_path self) filename
                      +:+ ":" +:+ line +:+ ": ") self)).
Proof.
  split; [|split; [|split]].
  - intros pm self Hartifact. by run.
  - intros pm am self Hartifact Huri. by run.
  - intros pm am uri self Hartifact Huri Hregion. by run.
  - intros pm am rm filename startLine line self
      Hartifact Huri Hregion Hline Hformat Hcolumn.
    run. rewrite Hformat. run. same_text.
Qed.

Lemma C10_physical_location_fields_witness :
  write_physical_location
    (obj [("region", obj [("startLine", JNum 42)])]) (init "" "/src")
  = (Raised (KeyError (JStr "artifactLocation")), init "" "/src")
  ∧ write_physical_location
      (obj [("artifactLocation", obj [("uri", JStr "foo.c")])]) (init "" "/src")
    = (Raised (KeyError (JStr "region")), init "" "/src")
  ∧ write_physical_location
      (obj [("artifactLocation", obj [("uri", JStr "foo.c")]);
            ("region", obj [("startLine", JNum 42)])]) (init "" "/src")
    = (Returned (), init "/src/foo.c:42: " "/src").
Proof.
  split; [|split].
  - apply (proj1 C10_physical_location_fields). reflexivity.
  - eapply (proj1 (proj2 (proj2 C10_physical_location_fields))); reflexivity.
  - refine (proj2 (proj2 (proj2 C10_physical_location_fields))
              (list_to_map
                 [("artifactLocation", obj [("uri", JStr "foo.c")]);
                  ("region", obj [("startLine", JNum 42)])])
              (list_to_map [("uri", JStr "foo.c")])
              (list_to_map [("startLine", JNum 42)])
              "foo.c" (JNum 42) "42" (init "" "/src") _ _ _ _ _ _);
      reflexivity.
Defined.

(** ** C6: the CWE annotation *)

Section Taxa.

Variable str_of_container : json → string.

(** The annotation of a taxonomy reference, in the words of the
    specification: [" [CWE-<id>]"] when its tool component is named "cwe",
    nothing for another tool component or without one. *)
Definition annotation (rdr : json) : option string :=
  match rdr with
  | JObj m =>
      match m !! "toolComponent" with
      | None => Some ""
      | Some (JObj tc) =>
          match tc !! "name" with
          | Some name =>
              if decide (name = JStr "cwe") then
                match m !! "id" with
                | Some id => Some (" [CWE-" +:+ format_s str_of_container id +:+ "]")
                | None => None
                end
              else Some ""
          | None => None
          end
      | Some _ => None
      end
  | _ => None
  end.

Lemma py_eq_cwe name : Py.eq name (JStr "cwe") = bool_decide (name = JStr "cwe").
Proof.
  apply eq_true_iff_eq. rewrite py_eq_str. by rewrite bool_decide_eq_true.
Qed.

Lemma write_reporting_descriptor_reference_annotation rdr text self :
  annotation rdr = Some text →
  write_reporting_descriptor_reference str_of_container rdr self
  = (Returned (), append_dst text self).
Proof.
  unfold annotation. destruct rdr as [| | | | |m]; try done.
  destruct (m !! "toolComponent") as [[| | | | |tc]|] eqn:Hcomponent; try done.
  - destruct (tc !! "name") as [name|] eqn:Hname; [|done].
    run. rewrite py_eq_cwe.
    destruct (decide (name = JStr "cwe")) as [->|Hother].
    + destruct (m !! "id") as [id|] eqn:Hid; [|done]. intros [= <-].
      rewrite bool_decide_eq_true_2 by done. by run.
    + intros [= <-]. rewrite bool_decide_eq_false_2 by done.
      by rewrite append_dst_empty.
  - intros [= <-]. run. by rewrite append_dst_empty.
Qed.

Lemma taxa_annotations rdrs : ∀ texts self,
  Forall2 (λ rdr text, annotation rdr = Some text) rdrs texts →
  for_each (write_reporting_descriptor_reference str_of_container) rdrs self
  = (Returned (), append_dst (String.concat "" texts) self).
Proof.
  induction rdrs as [|rdr rdrs IH]; intros texts self Hall.
  - apply Forall2_nil_inv_l in Hall as ->. by rewrite append_dst_empty.
  - apply Forall2_cons_inv_l in Hall as (text & texts' & Htext & Hall & ->).
    cbn [for_each].
    erewrite bind_returned
      by by apply write_reporting_descriptor_reference_annotation.
    rewrite (IH _ _ Hall), append_dst_append. do 2 f_equal.
    destruct texts' as [|text' texts']; [by rewrite append_empty_r|done].
Qed.

End Taxa.

(** C6.  A taxonomy reference whose tool component is named "cwe" writes
    [" [CWE-<id>]"], without a newline, after what the result's line holds
    so far; a reference to a tool component of any other name, or without a
    tool component, writes nothing.  Over the [taxa] of a result the
    annotations are written in order, one per reference named "cwe". *)
Theorem C6_cwe_annotation str :
  (∀ (m tc : gmap string json) name id self,
     m !! "toolComponent" = Some (JObj tc) →
     tc !! "name" = Some name →
     m !! "id" = Some id →
     write_reporting_descriptor_reference str (JObj m) self
     = (Returned (),
        append_dst
          (if decide (name = JStr "cwe")
           then " [CWE-" +:+ format_s str id +:+ "]" else "") self))
  ∧ (∀ (m : gmap string json) self,
       m !! "toolComponent" = None →
       write_reporting_descriptor_reference str (JObj m) self
       = (Returned (), self))
  ∧ (∀ rdrs texts self,
       Forall2 (λ rdr text, annotation str rdr = Some text) rdrs texts →
       for_each (write_reporting_descriptor_reference str) rdrs self
       = (Returned (), append_dst (String.concat "" texts) self)).
Proof.
  split; [|split].
  - intros m tc name id self Hcomponent Hname Hid.
    apply write_reporting_descriptor_reference_annotation.
    unfold annotation. rewrite Hcomponent, Hname, Hid.
    by destruct (decide (name = JStr "cwe")).
  - intros m self Hnone. by run.
  - intros rdrs texts self. apply taxa_annotations.
Qed.

Lemma C6_cwe_annotation_witness :
  let reference (name id : string) : gmap string json :=
    list_to_map [("toolComponent", obj [("name", JStr name)]); ("id", JStr id)] in
  write_reporting_descriptor_reference example_str
    (JObj (reference "cwe" "120")) (init "overflow" ".")
  = (Returned (), init "overflow [CWE-120]" ".")
  ∧ write_reporting_descriptor_reference example_str
      (JObj (reference "owasp" "A1")) (init "overflow" ".")
    = (Returned (), init "overflow" ".").
Proof.
  intros reference. split.
  - refine (proj1 (C6_cwe_annotation example_str) (reference "cwe" "120")
              (list_to_map [("name", JStr "cwe")]) (JStr "cwe") (JStr "120")
              (init "overflow" ".") _ _ _); reflexivity.
  - refine (proj1 (C6_cwe_annotation example_str) (reference "owasp" "A1")
              (list_to_map [("name", JStr "owasp")]) (JStr "owasp") (JStr "A1")
              (init "overflow" ".") _ _ _); reflexivity.
Defined.

(** ** C4: the code flow *)

(** The position prefix of a physical location, in the words of the
    specification: [<path>:<line>:], then [<column>:] if there is a column,
    then a space. *)
Definition physical_prefix (base : string) (pl : json) : option string :=
  match pl with
  | JObj pm =>
      match pm !! "artifactLocation", pm !! "region" with
      | Some (JObj am), Some (JObj rm) =>
          match am !! "uri", rm !! "startLine" with
          | Some (JStr filename), Some startLine =>
              match Py.format_i startLine, rm !! "startColumn" with
              | Returned line, None =>
                  Some (Pathlib.Path base filename +:+ ":" +:+ line +:+ ": ")
              | Returned line, Some startColumn =>
                  match Py.format_i startColumn with
                  | Returned column =>
                      Some (Pathlib.Path base filename +:+ ":" +:+ line
                            +:+ ":" +:+ column +:+ ": ")
                  | Raised _ => None
                  end
              | Raised _, _ => None
              end
          | _, _ => None
          end
      | _, _ => None
      end
  | _ => None
  end.

(** A trace step that carries no logical location: its position prefix
    (empty without a physical location) and its own message text. *)
Definition plain_step (base : string) (step : json) : option (string * string) :=
  match step with
  | JObj sm =>
      match sm !! "location" with
      | Some (JObj lm) =>
          match lm !! "logicalLocations", lm !! "message" with
          | None, Some (JObj mm) =>
              match mm !! "text" with
              | Some (JStr text) =>
                  match lm !! "physicalLocation" with
                  | None => Some ("", text)
                  | Some pl =>
                      match physical_prefix base pl with
                      | Some prefix => Some (prefix, text)
                      | None => None
                      end
                  end
              | _ => None
              end
          | _, _ => None
          end
      | _ => None
      end
  | _ => None
  end.

(** The number of lines of a text: its newline characters. *)
Fixpoint count_lines (s : string) : nat :=
  match s with
  | EmptyString => 0
  | String c rest =>
      (if decide (c = "010"%char) then 1 else 0) + count_lines rest
  end.

Lemma write_physical_location_prefix pl prefix self :
  physical_prefix (base_path self) pl = Some prefix →
  write_physical_location pl self = (Returned (), append_dst prefix self).
Proof.
  unfold physical_prefix. destruct pl as [| | | | |pm]; try done.
  destruct (pm !! "artifactLocation") as [[| | | | |am]|] eqn:Hartifact;
    try done.
  destruct (pm !! "region") as [[| | | | |rm]|] eqn:Hregion; try done.
  destruct (am !! "uri") as [[| | |filename| |]|] eqn:Huri; try done.
  destruct (rm !! "startLine") as [startLine|] eqn:Hline; [|done].
  destruct (Py.format_i startLine) as [line|] eqn:Hformat; [|done].
  destruct (rm !! "startColumn") as [startColumn|] eqn:Hcolumn.
  - destruct (Py.format_i startColumn) as [column|] eqn:Hformat'; [|done].
    intros [= <-]. run. rewrite Hformat. run. rewrite Hformat'. run.
    same_text.
  - intros [= <-]. run. rewrite Hformat. run. same_text.
Qed.

Lemma write_thread_flow_location_plain str idx step prefix text self :
  plain_step (base_path self) step = Some (prefix, text) →
  write_thread_flow_location str idx step self
  = (Returned (),
     append_dst (prefix +:+ "(" +:+ pretty (idx + 1) +:+ ") " +:+ text
                 +:+ Py.newline) self).
Proof.
  unfold plain_step. destruct step as [| | | | |sm]; try done.
  destruct (sm !! "location") as [[| | | | |lm]|] eqn:Hlocation; try done.
  destruct (lm !! "logicalLocations") eqn:Hlogical; [done|].
  destruct (lm !! "message") as [[| | | | |mm]|] eqn:Hmessage; try done.
  destruct (mm !! "text") as [[| | |text'| |]|] eqn:Htext; try done.
  destruct (lm !! "physicalLocation") as [pl|] eqn:Hphysical.
  - destruct (physical_prefix (base_path self) pl) as [prefix'|] eqn:Hprefix;
      [|done].
    intros [= <- <-].
    apply write_physical_location_prefix in Hprefix.
    unfold write_thread_flow_location, write_location.
    set (physical := write_physical_location) in *. clearbody physical.
    run. rewrite Hprefix. run. same_text.
  - intros [= <- <-]. run. same_text.
Qed.

(** C4, as stated, fails: the three steps of the trace are in a function
    that is not the stored logical location, so the first step writes an
    "In function" header of its own and four lines follow the result's
    line, the first of which is not a numbered step. *)
Lemma C4_counterexample :
  let result :=
    obj [("message", message "main");
         ("codeFlows",
          JArr [obj [("threadFlows",
                      JArr [obj [("locations",
                                  JArr [step_in "f" "a"; step_in "f" "b";
                                        step_in "f" "c"])]])]])] in
  let written :=
    lines ["main"; "In function 'f':"; "(1) a"; "(2) b"; "(3) c"] in
  dump_sarif_result example_str result (init "" ".")
  = (Returned (),
     {| dst_file := written; base_path := ".";
        last_logical_location := function "f" |})
  ∧ count_lines written = 1 + 4.
Proof. cbv zeta. split; vm_compute; reflexivity. Qed.

(** C4 (amended).  Of the code flows of a result only the first is
    rendered, and of its thread flows only the first.  A thread flow of
    three steps whose locations carry no logical location writes, after the
    result's terminated line, exactly three lines, in the stored order: each
    is the step's position prefix (empty when it has no physical location),
    then "(1) ", "(2) ", "(3) ", then the step's own message text.  (A step
    that carries a logical location may write a header line before its
    own.) *)
Theorem C4_code_flow str (m cf tf : gmap string json) cfs tfs
    step1 step2 step3 p1 t1 p2 t2 p3 t3 self self' :
  m !! "codeFlows" = Some (JArr (JObj cf :: cfs)) →
  cf !! "threadFlows" = Some (JArr (JObj tf :: tfs)) →
  tf !! "locations" = Some (JArr [step1; step2; step3]) →
  plain_step (base_path self) step1 = Some (p1, t1) →
  plain_step (base_path self) step2 = Some (p2, t2) →
  plain_step (base_path self) step3 = Some (p3, t3) →
  dump_result_line str (JObj m) self = (Returned (), self') →
  dump_sarif_result str (JObj m) self
  = (Returned (),
     append_dst (p1 +:+ "(1) " +:+ t1 +:+ Py.newline
                 +:+ p2 +:+ "(2) " +:+ t2 +:+ Py.newline
                 +:+ p3 +:+ "(3) " +:+ t3 +:+ Py.newline) self').
Proof.
  intros Hflows Hthreads Hsteps Hstep1 Hstep2 Hstep3 Hline.
  assert (base_path self' = base_path self) as Hbase.
  { destruct (appending_run (dump_result_line str (JObj m)) self
                (appending_dump_result_line str (JObj m))) as (w & _ & Hb).
    by rewrite Hline in Hb. }
  rewrite <- Hbase in Hstep1, Hstep2, Hstep3.
  unfold dump_sarif_result. rewrite (bind_returned _ _ _ _ _ Hline).
  pose proof (write_thread_flow_location_plain str) as Hplain.
  unfold dump_result_code_flow, write_code_flow, write_thread_flow.
  set (handle := write_thread_flow_location str) in *. clearbody handle.
  run.
  rewrite (Hplain 0 step1 p1 t1 self' Hstep1). run.
  rewrite (Hplain 1 step2 p2 t2) by exact Hstep2. run.
  rewrite (Hplain 2 step3 p3 t3) by exact Hstep3. run.
  same_text.
Qed.

Lemma C4_code_flow_witness :
  let plain (text : string) := obj [("location", obj [("message", message text)])] in
  let located (text : string) :=
    obj [("location",
          obj [("message", message text);
               ("physicalLocation",
                obj [("artifactLocation", obj [("uri", JStr "foo.c")]);
                     ("region", obj [("startLine", JNum 7)])])])] in
  let thread steps := obj [("locations", JArr steps)] in
  let flow threads := obj [("threadFlows", JArr threads)] in
  let result :=
    obj [("message", message "main");
         ("codeFlows",
          JArr [flow [thread [plain "a"; located "b"; plain "c"];
                      thread [plain "dropped"]];
                flow [thread [plain "dropped too"]]])] in
  dump_sarif_result example_str result (init "" "/src")
  = (Returned (),
     init (lines ["main"; "(1) a"; "/src/foo.c:7: (2) b"; "(3) c"]) "/src").
Proof.
  intros plain located thread flow result.
  refine (C4_code_flow example_str
            (list_to_map
               [("message", message "main");
                ("codeFlows",
                 JArr [flow [thread [plain "a"; located "b"; plain "c"];
                             thread [plain "dropped"]];
                       flow [thread [plain "dropped too"]]])])
            (list_to_map
               [("threadFlows",
                 JArr [thread [plain "a"; located "b"; plain "c"];
                       thread [plain "dropped"]])])
            (list_to_map
               [("locations", JArr [plain "a"; located "b"; plain "c"])])
            [flow [thread [plain "dropped too"]]]
            [thread [plain "dropped"]]
            (plain "a") (located "b") (plain "c")
            "" "a" "/src/foo.c:7: " "b" "" "c"
            (init "" "/src") (init (lines ["main"]) "/src")
            _ _ _ _ _ _ _); vm_compute; reflexivity.
Defined.

(** ** C5: a missing required field *)





(** ** C1: the scenario on a document *)

(** C1, as stated, fails: for a document at the top of a relative root
    [main] constructs the dumper with base path ["."], and [Path] does not
    keep a leading ["./"]: the line starts with ["foo.c:42:5:"], not with
    ["./foo.c:42:5:"]. *)
Lemma C1_counterexample :
  let result :=
    obj [("level", JStr "error");
         ("message", message "null pointer dereference");
         ("locations",
          JArr [obj [("physicalLocation",
                      obj [("artifactLocation", obj [("uri", JStr "foo.c")]);
                           ("region",
                            obj [("startLine", JNum 42);
                                 ("startColumn", JNum 5)])])]]);
         ("ruleId", JStr "null-deref")] in
  let base := "." in
  let claimed :=
    lines [base +:+ "/foo.c:42:5: error: null pointer dereference [null-deref]"] in
  dump_sarif_result example_str result (init "" base)
  = (Returned (),
     init (lines ["foo.c:42:5: error: null pointer dereference [null-deref]"])
       base)
  ∧ dst_file (dump_sarif_result example_str result (init "" base)).2 ≠ claimed.
Proof.
  cbv zeta. split; [vm_compute; reflexivity|]. vm_compute. discriminate.
Qed.

Lemma C1_end_to_end_witness :
  let region : gmap string json :=
    list_to_map [("startLine", JNum 42); ("startColumn", JNum 5)] in
  let artifact : gmap string json := list_to_map [("uri", JStr "foo.c")] in
  let physical : gmap string json :=
    list_to_map [("artifactLocation", JObj artifact); ("region", JObj region)] in
  let location : gmap string json :=
    list_to_map [("physicalLocation", JObj physical)] in
  let text : gmap string json :=
    list_to_map [("text", JStr "null pointer dereference")] in
  let result : gmap string json :=
    list_to_map [("level", JStr "error"); ("message", JObj text);
                 ("locations", JArr [JObj location]);
                 ("ruleId", JStr "null-deref")] in
  dump_sarif_result example_str (JObj result) (init "" "/home/dev/project")
  = (Returned (),
     init (lines ["/home/dev/project/foo.c:42:5: error: null pointer dereference [null-deref]"])
       "/home/dev/project")
  ∧ Pathlib.Path "/home/dev/project" "foo.c" = "/home/dev/project" +:+ "/foo.c"
  ∧ dump_sarif_result example_str (JObj result) (init "" ".")
    = (Returned (),
       init (lines ["foo.c:42:5: error: null pointer dereference [null-deref]"])
         ".").
Proof.
  intros region artifact physical location text result.
  split; [|split].
  - refine (proj1 (C1_end_to_end example_str result location physical artifact
                     region text [] (init "" "/home/dev/project")
                     _ _ _ _ _ _ _ _ _ _ _ _) _ _); reflexivity.
  - refine (proj1 (proj2 (C1_end_to_end example_str result location physical
                            artifact region text [] (init "" "/home/dev/project")
                            _ _ _ _ _ _ _ _ _ _ _ _)) _); try reflexivity.
    repeat split; try reflexivity. discriminate.
  - refine (proj1 (C1_end_to_end example_str result location physical artifact
                     region text [] (init "" ".")
                     _ _ _ _ _ _ _ _ _ _ _ _) _ _); reflexivity.
Defined.

(** * Further properties of the dumper *)

(** ** A result with nothing but its message *)

(** X1.  A result that has a message and none of [locations], [level],
    [taxa], [ruleId] and [codeFlows] is rendered as its message text, as
    ['%s'] prints it, and a newline; nothing else changes. *)
Theorem X1_message_only str (m mm : gmap string json) text self :
  m !! "locations" = None →
  m !! "level" = None →
  m !! "taxa" = None →
  m !! "ruleId" = None →
  m !! "codeFlows" = None →
  m !! "message" = Some (JObj mm) →
  mm !! "text" = Some text →
  dump_sarif_result str (JObj m) self
  = (Returned (), append_dst (format_s str text +:+ Py.newline) self).
Proof. intros. run. same_text. Qed.

Lemma X1_message_only_witness :
  dump_sarif_result example_str (obj [("message", obj [("text", JNum 42)])])
    (init "" ".")
  = (Returned (), init (lines ["42"]) ".").
Proof.
  refine (X1_message_only example_str
            (list_to_map [("message", obj [("text", JNum 42)])])
            (list_to_map [("text", JNum 42)]) (JNum 42) (init "" ".")
            _ _ _ _ _ _ _); reflexivity.
Defined.

(** ** When a physical location is rendered *)

Ltac raises :=
  eexists _, _; run; cbn [Py.getitem Py.contains]; run; reflexivity.

Lemma write_physical_location_raises pl self :
  physical_prefix (base_path self) pl = None →
  ∃ e self', write_physical_location pl self = (Raised e, self').
Proof.
  unfold physical_prefix. destruct pl as [| | | | |pm]; try (intros _; raises).
  destruct (pm !! "artifactLocation") as [artifact|] eqn:Hartifact;
    [|intros _; raises].
  destruct artifact as [| | | | |am]; try (intros _; raises).
  destruct (am !! "uri") as [uri|] eqn:Huri; [|intros _; destruct (pm !! "region"); raises].
  destruct (pm !! "region") as [region|] eqn:Hregion; [|intros _; raises].
  destruct uri as [| | |filename| |]; try (intros _; raises).
  destruct region as [| | | | |rm]; try (intros _; raises).
  destruct (rm !! "startLine") as [startLine|] eqn:Hline; [|intros _; raises].
  destruct (Py.format_i startLine) as [line|e] eqn:Hformat;
    [|intros _; eexists _, _; run; rewrite Hformat; reflexivity].
  destruct (rm !! "startColumn") as [startColumn|] eqn:Hcolumn; [|done].
  destruct (Py.format_i startColumn) as [column|e] eqn:Hformat'; [done|].
  intros _. eexists _, _. run. rewrite Hformat. run. rewrite Hformat'.
  reflexivity.
Qed.

(** X2.  [write_physical_location] returns exactly when the physical
    location is an object whose [artifactLocation] is an object with a
    string [uri] and whose [region] is an object with a [startLine], and a
    [startColumn] if any, that ['%i'] can print; it has then written
    [<path>:<line>:], [<column>:] if there is a column, and a space, and
    changed nothing else. *)
Theorem X2_physical_location_returns pl self self' :
  write_physical_location pl self = (Returned (), self')
  ↔ ∃ prefix, physical_prefix (base_path self) pl = Some prefix
              ∧ self' = append_dst prefix self.
Proof.
  split.
  - intros Hrun.
    destruct (physical_prefix (base_path self) pl) as [prefix|] eqn:Hprefix.
    + exists prefix. split; [done|].
      apply write_physical_location_prefix in Hprefix. congruence.
    + apply write_physical_location_raises in Hprefix as (e & s & Hraised).
      congruence.
  - intros (prefix & Hprefix & ->).
    by apply write_physical_location_prefix.
Qed.

Lemma X2_physical_location_returns_witness :
  write_physical_location
    (obj [("artifactLocation", obj [("uri", JStr "src/foo.c")]);
          ("region", obj [("startLine", JNum 42); ("startColumn", JNum 5)])])
    (init "" "/home/dev")
  = (Returned (), init "/home/dev/src/foo.c:42:5: " "/home/dev").
Proof.
  apply (proj2 (X2_physical_location_returns _ _ _)).
  exists "/home/dev/src/foo.c:42:5: ". split; reflexivity.
Defined.

(** X3.  The column is looked at after the path and the line have been
    written: a [startColumn] that ['%i'] cannot print (a string, [null])
    raises [TypeError] and leaves [<path>:<line>:] written. *)
Theorem X3_unprintable_column (pm am rm : gmap string json)
    filename startLine line startColumn self :
  pm !! "artifactLocation" = Some (JObj am) →
  am !! "uri" = Some (JStr filename) →
  pm !! "region" = Some (JObj rm) →
  rm !! "startLine" = Some startLine →
  Py.format_i startLine = Returned line →
  rm !! "startColumn" = Some startColumn →
  Py.format_i startColumn = Raised TypeError →
  write_physical_location (JObj pm) self
  = (Raised TypeError,
     append_dst (Pathlib.Path (base_path self) filename
                 +:+ ":" +:+ line +:+ ":") self).
Proof.
  intros Hartifact Huri Hregion Hline Hformat Hcolumn Hformat'.
  run. rewrite Hformat. run. rewrite Hformat'. reflexivity.
Qed.

Lemma X3_unprintable_column_witness :
  write_physical_location
    (obj [("artifactLocation", obj [("uri", JStr "foo.c")]);
          ("region", obj [("startLine", JNum 42); ("startColumn", JStr "5")])])
    (init "" "/src")
  = (Raised TypeError, init "/src/foo.c:42:" "/src").
Proof.
  refine (X3_unprintable_column
            (list_to_map
               [("artifactLocation", obj [("uri", JStr "foo.c")]);
                ("region",
                 obj [("startLine", JNum 42); ("startColumn", JStr "5")])])
            (list_to_map [("uri", JStr "foo.c")])
            (list_to_map [("startLine", JNum 42); ("startColumn", JStr "5")])
            "foo.c" (JNum 42) "42" (JStr "5") (init "" "/src")
            _ _ _ _ _ _ _); reflexivity.
Defined.

(** ** The message of a trace step *)

(** X4.  A trace step's message is read after its location and its number
    have been written.  A step whose location has no [message], or whose
    message has no [text], raises [KeyError], and one whose text is not a
    string raises [TypeError] (the sink takes strings only, where a result's
    text goes through ['%s']); in each case the step's prefix and ["(n) "]
    stay written, on a line that is not ended. *)
Theorem X4_step_message str idx (sm lm : gmap string json) self self' :
  sm !! "location" = Some (JObj lm) →
  write_location str (JObj lm) self = (Returned (), self') →
  let numbered := append_dst ("(" +:+ pretty (idx + 1) +:+ ") ") self' in
  (lm !! "message" = None →
   write_thread_flow_location str idx (JObj sm) self
   = (Raised (KeyError (JStr "message")), numbered))
  ∧ (∀ mm : gmap string json,
       lm !! "message" = Some (JObj mm) →
       mm !! "text" = None →
       write_thread_flow_location str idx (JObj sm) self
       = (Raised (KeyError (JStr "text")), numbered))
  ∧ (∀ (mm : gmap string json) text,
       lm !! "message" = Some (JObj mm) →
       mm !! "text" = Some text →
       (∀ s, text ≠ JStr s) →
       write_thread_flow_location str idx (JObj sm) self
       = (Raised TypeError, numbered)).
Proof.
  intros Hlocation Hprefix numbered. subst numbered.
  unfold write_thread_flow_location.
  rewrite (getitem_Some _ _ _ Hlocation), bind_run, eval_run.
  rewrite (bind_run (write_location _ _)), Hprefix.
  split; [|split].
  - intros Hmessage. by run.
  - intros mm Hmessage Htext. by run.
  - intros mm text Hmessage Htext Hother. run.
    destruct text as [| | |s| |]; try done. by destruct (Hother s).
Qed.

Lemma X4_step_message_witness :
  write_thread_flow_location example_str 2
    (obj [("location", obj [("message", obj [("text", JNum 7)])])])
    (init "" ".")
  = (Raised TypeError, init "(3) " ".").
Proof.
  refine (proj2 (proj2 (X4_step_message example_str 2
             (list_to_map [("location", obj [("message", obj [("text", JNum 7)])])])
             (list_to_map [("message", obj [("text", JNum 7)])])
             (init "" ".") (init "" ".") _ _))
            (list_to_map [("text", JNum 7)]) (JNum 7) _ _ _);
    try reflexivity.
  intros s. discriminate.
Defined.

(** ** A logical location that cannot be rendered *)

(** X5.  A logical location that differs from the stored one is stored
    before its fields are read: without a [kind], or with kind "function"
    and no [fullyQualifiedName], [write_logical_location] raises [KeyError]
    having written nothing, the header line being written in one piece or
    not at all, and the logical location is the stored one from then on. *)
Theorem X5_logical_location_fields str (lm : gmap string json) self :
  Py.eq (JObj lm) (last_logical_location self) = false →
  let stored :=
    {| dst_file := dst_file self; base_path := base_path self;
       last_logical_location := JObj lm |} in
  (lm !! "kind" = None →
   write_logical_location str (JObj lm) self
   = (Raised (KeyError (JStr "kind")), stored))
  ∧ (lm !! "kind" = Some (JStr "function") →
     lm !! "fullyQualifiedName" = None →
     write_logical_location str (JObj lm) self
     = (Raised (KeyError (JStr "fullyQualifiedName")), stored)).
Proof.
  intros Hne stored. subst stored. split.
  - intros Hkind. run. rewrite Hne. by run.
  - intros Hkind Hname. run. rewrite Hne. run. rewrite py_eq_refl. by run.
Qed.

Lemma X5_logical_location_fields_witness :
  write_logical_location example_str (obj [("kind", JStr "function")])
    (init "" ".")
  = (Raised (KeyError (JStr "fullyQualifiedName")),
     {| dst_file := ""; base_path := ".";
        last_logical_location := obj [("kind", JStr "function")] |}).
Proof.
  refine (proj2 (X5_logical_location_fields example_str
                   (list_to_map [("kind", JStr "function")]) (init "" ".") _)
            _ _); reflexivity.
Defined.

(** ** Logical locations that are empty in another way *)

(** X6.  Whatever Python takes as false, [null], [false], [0], [""], an
    empty list or an empty object, stands for no logical locations: the
    location is handled as the same location without the key. *)
Theorem X6_falsy_logical_locations str (lm : gmap string json) falsy self :
  lm !! "logicalLocations" = Some falsy →
  Py.truthy falsy = false →
  write_location str (JObj lm) self
  = write_location str (JObj (delete "logicalLocations" lm)) self.
Proof.
  intros Hfalsy Hfalse.
  set (lm' := delete "logicalLocations" lm).
  assert (lm' !! "logicalLocations" = None) as Hnone
    by apply lookup_delete_eq.
  assert (lm' !! "physicalLocation" = lm !! "physicalLocation") as Hsame
    by by apply lookup_delete_ne.
  clearbody lm'. unfold write_location. run. rewrite Hfalse. run.
  by rewrite (contains_ext _ lm lm'), (getitem_ext _ lm lm').
Qed.

Lemma X6_falsy_logical_locations_witness :
  let lm : gmap string json :=
    list_to_map [("logicalLocations", JNull); ("message", message "m")] in
  write_location example_str (JObj lm) (init "" ".")
  = write_location example_str (JObj (delete "logicalLocations" lm)) (init "" ".").
Proof.
  intros lm.
  apply (X6_falsy_logical_locations example_str lm JNull (init "" "."));
    reflexivity.
Defined.

(** ** Only the first of each list is read *)

(** Subscripts of [m'] at the keys of a result on which it agrees with
    [m] are subscripts of [m]. *)
Ltac other_key key m m' H :=
  rewrite ?(contains_ext key m m'), ?(getitem_ext key m m') by (apply H; done).

Ltac other_keys m m' H :=
  other_key "locations" m m' H; other_key "level" m m' H;
  other_key "message" m m' H; other_key "taxa" m m' H;
  other_key "ruleId" m m' H; other_key "codeFlows" m m' H.

(** X7.  Of the [locations] and of the [codeFlows] of a result, of the
    [threadFlows] of a code flow and of the [logicalLocations] of a location
    only the first entry is read: the rendering is that of the same object
    with the list cut down to its first entry. *)
Theorem X7_first_entry_only str self :
  (∀ (m : gmap string json) loc rest,
     m !! "locations" = Some (JArr (loc :: rest)) →
     dump_sarif_result str (JObj m) self
     = dump_sarif_result str (JObj (<["locations" := JArr [loc]]> m)) self)
  ∧ (∀ (m : gmap string json) flow rest,
       m !! "codeFlows" = Some (JArr (flow :: rest)) →
       dump_sarif_result str (JObj m) self
       = dump_sarif_result str (JObj (<["codeFlows" := JArr [flow]]> m)) self)
  ∧ (∀ (cf : gmap string json) thread rest,
       cf !! "threadFlows" = Some (JArr (thread :: rest)) →
       write_code_flow str (JObj cf) self
       = write_code_flow str (JObj (<["threadFlows" := JArr [thread]]> cf)) self)
  ∧ (∀ (lm : gmap string json) l rest,
       lm !! "logicalLocations" = Some (JArr (l :: rest)) →
       write_location str (JObj lm) self
       = write_location str (JObj (<["logicalLocations" := JArr [l]]> lm)) self).
Proof.
  split; [|split; [|split]].
  - intros m loc rest Hlocs.
    set (m' := <["locations" := JArr [loc]]> m).
    assert (m' !! "locations" = Some (JArr [loc])) as Hlocs'
      by apply lookup_insert_eq.
    assert (∀ key, key ≠ "locations" → m' !! key = m !! key) as Hm'
      by (intros; by apply lookup_insert_ne).
    clearbody m'.
    unfold dump_sarif_result, dump_result_line, dump_result_code_flow.
    other_keys m m' Hm'. by run.
  - intros m flow rest Hflows.
    set (m' := <["codeFlows" := JArr [flow]]> m).
    assert (m' !! "codeFlows" = Some (JArr [flow])) as Hflows'
      by apply lookup_insert_eq.
    assert (∀ key, key ≠ "codeFlows" → m' !! key = m !! key) as Hm'
      by (intros; by apply lookup_insert_ne).
    clearbody m'.
    unfold dump_sarif_result, dump_result_line, dump_result_code_flow.
    other_keys m m' Hm'. by run.
  - intros cf thread rest Hthreads.
    set (cf' := <["threadFlows" := JArr [thread]]> cf).
    assert (cf' !! "threadFlows" = Some (JArr [thread])) as Hthreads'
      by apply lookup_insert_eq.
    clearbody cf'. by run.
  - intros lm l rest Hls.
    set (lm' := <["logicalLocations" := JArr [l]]> lm).
    assert (lm' !! "logicalLocations" = Some (JArr [l])) as Hls'
      by apply lookup_insert_eq.
    assert (lm' !! "physicalLocation" = lm !! "physicalLocation") as Hsame
      by by apply lookup_insert_ne.
    clearbody lm'. unfold write_location.
    rewrite (contains_ext _ lm lm' Hsame), (getitem_ext _ lm lm' Hsame).
    by run.
Qed.

Lemma X7_first_entry_only_witness :
  let located (name : string) : json :=
    obj [("logicalLocations", JArr [function name])] in
  let result (locations : list json) : gmap string json :=
    list_to_map [("message", message "m"); ("locations", JArr locations)] in
  dump_sarif_result example_str (JObj (result [located "f"; located "g"]))
    (init "" ".")
  = dump_sarif_result example_str
      (JObj (<["locations" := JArr [located "f"]]>
               (result [located "f"; located "g"])))
      (init "" ".").
Proof.
  intros located result.
  apply (proj1 (X7_first_entry_only example_str (init "" "."))
           (result [located "f"; located "g"]) (located "f") [located "g"]).
  reflexivity.
Defined.

(** ** A trace of any length *)

(** Whether handling the logical locations of a location is silent when
    [stored] is the stored logical location: there are none, or the first
    one equals [stored]. *)
Definition silent_logical (stored : json) (lm : gmap string json) : bool :=
  match lm !! "logicalLocations" with
  | None => true
  | Some logicalLocations =>
      if Py.truthy logicalLocations then
        match Py.first logicalLocations with
        | Returned l => Py.eq l stored
        | Raised _ => false
        end
      else true
  end.

(** A trace step that writes no header when [stored] is stored: its
    position prefix (empty without a physical location) and its own message
    text. *)
Definition quiet_step (base : string) (stored : json) (step : json)
    : option (string * string) :=
  match step with
  | JObj sm =>
      match sm !! "location" with
      | Some (JObj lm) =>
          match silent_logical stored lm, lm !! "message" with
          | true, Some (JObj mm) =>
              match mm !! "text" with
              | Some (JStr text) =>
                  match lm !! "physicalLocation" with
                  | None => Some ("", text)
                  | Some pl =>
                      match physical_prefix base pl with
                      | Some prefix => Some (prefix, text)
                      | None => None
                      end
                  end
              | _ => None
              end
          | _, _ => None
          end
      | _ => None
      end
  | _ => None
  end.

(** The lines of the steps with the given prefixes and texts, numbered
    from [idx + 1]. *)
Fixpoint numbered_lines (idx : nat) (steps : list (string * string)) : string :=
  match steps with
  | [] => ""
  | (prefix, text) :: rest =>
      prefix +:+ "(" +:+ pretty (idx + 1) +:+ ") " +:+ text +:+ Py.newline
      +:+ numbered_lines (S idx) rest
  end.

Lemma write_location_silent str (lm : gmap string json) self :
  silent_logical (last_logical_location self) lm = true →
  write_location str (JObj lm) self
  = write_location str (JObj (delete "logicalLocations" lm)) self.
Proof.
  unfold silent_logical. intros Hsilent.
  set (lm' := delete "logicalLocations" lm).
  assert (lm' !! "logicalLocations" = None) as Hnone
    by apply lookup_delete_eq.
  assert (lm' !! "physicalLocation" = lm !! "physicalLocation") as Hsame
    by by apply lookup_delete_ne.
  clearbody lm'. unfold write_location.
  rewrite (contains_ext _ lm lm' Hsame), (getitem_ext _ lm lm' Hsame).
  destruct (lm !! "logicalLocations") as [ls|] eqn:Hls; [|by run].
  destruct (Py.truthy ls) eqn:Htruthy; [|run; rewrite Htruthy; by run].
  destruct (Py.first ls) as [l|] eqn:Hfirst; [|done].
  run. rewrite Htruthy, Hfirst. run. by rewrite Hsilent.
Qed.

Lemma write_location_quiet str (lm : gmap string json) prefix self :
  silent_logical (last_logical_location self) lm = true →
  match lm !! "physicalLocation" with
  | None => Some ""
  | Some pl => physical_prefix (base_path self) pl
  end = Some prefix →
  write_location str (JObj lm) self = (Returned (), append_dst prefix self).
Proof.
  intros Hsilent Hprefix. rewrite (write_location_silent _ _ _ Hsilent).
  set (lm' := delete "logicalLocations" lm).
  assert (lm' !! "logicalLocations" = None) as Hnone
    by apply lookup_delete_eq.
  assert (lm' !! "physicalLocation" = lm !! "physicalLocation") as Hsame
    by by apply lookup_delete_ne.
  clearbody lm'. unfold write_location.
  rewrite (contains_ext _ lm lm' Hsame), (getitem_ext _ lm lm' Hsame).
  destruct (lm !! "physicalLocation") as [pl|] eqn:Hphysical.
  - apply write_physical_location_prefix in Hprefix.
    set (physical := write_physical_location) in *. clearbody physical.
    run. by rewrite Hprefix.
  - injection Hprefix as <-. run. by rewrite append_dst_empty.
Qed.

Lemma write_thread_flow_location_quiet str idx step prefix text self :
  quiet_step (base_path self) (last_logical_location self) step
  = Some (prefix, text) →
  write_thread_flow_location str idx step self
  = (Returned (),
     append_dst (prefix +:+ "(" +:+ pretty (idx + 1) +:+ ") " +:+ text
                 +:+ Py.newline) self).
Proof.
  unfold quiet_step. destruct step as [| | | | |sm]; try done.
  destruct (sm !! "location") as [[| | | | |lm]|] eqn:Hlocation; try done.
  destruct (silent_logical _ lm) eqn:Hsilent; [|done].
  destruct (lm !! "message") as [[| | | | |mm]|] eqn:Hmessage; try done.
  destruct (mm !! "text") as [[| | |text'| |]|] eqn:Htext; try done.
  intros Hprefix.
  assert (write_location str (JObj lm) self
          = (Returned (), append_dst prefix self) ∧ text' = text)
    as [Hwritten ->].
  { destruct (lm !! "physicalLocation") as [pl|] eqn:Hphysical.
    - destruct (physical_prefix (base_path self) pl) as [prefix'|] eqn:Hpl;
        [|done].
      injection Hprefix as <- <-. split; [|done].
      apply write_location_quiet; [done|]. by rewrite Hphysical.
    - injection Hprefix as <- <-. split; [|done].
      apply write_location_quiet; [done|]. by rewrite Hphysical. }
  unfold write_thread_flow_location.
  set (handle := write_location str) in *. clearbody handle.
  run. rewrite Hwritten. run. same_text.
Qed.

Lemma trace_quiet str steps : ∀ texts idx self,
  Forall2 (λ step line,
             quiet_step (base_path self) (last_logical_location self) step
             = Some line) steps texts →
  for_each_enumerate (write_thread_flow_location str) idx steps self
  = (Returned (), append_dst (numbered_lines idx texts) self).
Proof.
  induction steps as [|step steps IH]; intros texts idx self Hall.
  - apply Forall2_nil_inv_l in Hall as ->. by rewrite append_dst_empty.
  - apply Forall2_cons_inv_l in Hall as ([prefix text] & texts' & Hstep & Hall & ->).
    cbn [for_each_enumerate numbered_lines].
    erewrite bind_returned by by apply write_thread_flow_location_quiet.
    rewrite (IH texts' (S idx)) by exact Hall.
    rewrite append_dst_append. by rewrite !append_assoc.
Qed.

(** X8.  A thread flow whose steps each carry a location with a string
    message text and no logical location other than the stored one, and a
    physical location, if any, that can be rendered, writes one line per
    step, in the stored order: the step's position prefix, its number
    counted from 1 in parentheses, a space, its text.  Nothing else is
    written and the stored logical location is unchanged. *)
Theorem X8_thread_flow_lines str (tf : gmap string json) steps texts self :
  tf !! "locations" = Some (JArr steps) →
  Forall2 (λ step line,
             quiet_step (base_path self) (last_logical_location self) step
             = Some line) steps texts →
  write_thread_flow str (JObj tf) self
  = (Returned (), append_dst (numbered_lines 0 texts) self).
Proof.
  intros Hsteps Hall. unfold write_thread_flow.
  rewrite (getitem_Some _ _ _ Hsteps), !bind_run, !eval_run.
  cbn [Py.iter]. by apply trace_quiet.
Qed.

Lemma X8_thread_flow_lines_witness :
  let step (text : string) :=
    obj [("location",
          obj [("logicalLocations", JArr [function "f"]);
               ("message", message text)])] in
  let stored :=
    {| dst_file := ""; base_path := ".";
       last_logical_location := function "f" |} in
  write_thread_flow example_str
    (obj [("locations", JArr [step "a"; step "b"; step "c"; step "d"])])
    stored
  = (Returned (),
     append_dst (lines ["(1) a"; "(2) b"; "(3) c"; "(4) d"]) stored).
Proof.
  intros step stored.
  refine (X8_thread_flow_lines example_str
            (list_to_map
               [("locations", JArr [step "a"; step "b"; step "c"; step "d"])])
            [step "a"; step "b"; step "c"; step "d"]
            [("", "a"); ("", "b"); ("", "c"); ("", "d")] stored _ _).
  - reflexivity.
  - repeat constructor.
Defined.

(** ** Rendering a document in two parts *)

(** X9.  Rendering a list of results with one dumper is rendering a first
    part of it and then, if no exception was raised, the rest with the same
    dumper, the stored logical location carrying over; an exception raised
    in the first part is the outcome and the rest is not rendered. *)
Theorem X9_dump_sarif_file_app str (first rest : list json) self :
  dump_sarif_file str (first ++ rest)%list self
  = (dump_sarif_file str first ;; dump_sarif_file str rest) self.
Proof.
  unfold dump_sarif_file. revert self.
  induction first as [|result first IH]; intros self; [done|].
  cbn [app for_each]. rewrite !bind_run.
  destruct (dump_sarif_result str result self) as [[[]|e] self1]; [|done].
  rewrite IH. by rewrite bind_run.
Qed.

(** ** How the base path is prepended *)

Lemma concat_app sep (l1 l2 : list string) :
  l1 ≠ [] → l2 ≠ [] →
  String.concat sep (l1 ++ l2)%list
  = String.concat sep l1 +:+ sep +:+ String.concat sep l2.
Proof.
  intros Hl1 Hl2. induction l1 as [|x l1 IH]; [done|].
  destruct l1 as [|y l1].
  - destruct l2 as [|z l2]; [done|]. reflexivity.
  - change ((x :: y :: l1) ++ l2)%list with (x :: y :: (l1 ++ l2))%list.
    rewrite concat_cons_cons.
    change (y :: (l1 ++ l2))%list with ((y :: l1) ++ l2)%list.
    rewrite IH by done. rewrite (concat_cons_cons sep x y l1).
    by rewrite !append_assoc.
Qed.

(** A relative path in the form the parser prints, other than ["."]. *)
Definition relative (filename : string) : Prop :=
  String.prefix "/" filename = false
  ∧ Pathlib.normal filename = filename ∧ filename ≠ ".".

Lemma relative_parts filename :
  relative filename →
  Pathlib.parts filename ≠ []
  ∧ String.concat "/" (Pathlib.parts filename) = filename.
Proof.
  intros (Hrel & Hnormal & Hdot). unfold Pathlib.normal, Pathlib.root in Hnormal.
  rewrite Hrel in Hnormal. cbn [negb] in Hnormal.
  change ("" +:+ ?x) with x in Hnormal.
  destruct (Pathlib.parts filename) as [|p ps] eqn:Hparts.
  - vm_compute in Hnormal. congruence.
  - split; [done|]. by case_bool_decide.
Qed.

Lemma directory_parts base :
  directory base →
  Pathlib.parts base ≠ []
  ∧ Pathlib.root base +:+ String.concat "/" (Pathlib.parts base) = base.
Proof.
  intros (Hnormal & Hdot & Hend). unfold Pathlib.normal in Hnormal.
  destruct (Pathlib.parts base) as [|p ps] eqn:Hparts.
  - exfalso. unfold Pathlib.root in Hnormal.
    destruct (negb (String.prefix "/" base));
      [|destruct (negb (String.prefix "//" base) || String.prefix "///" base)];
      vm_compute in Hnormal; subst base; done.
  - split; [done|]. by case_bool_decide.
Qed.

Lemma Path_below_directory base filename :
  directory base → relative filename →
  Pathlib.Path base filename = base +:+ "/" +:+ filename.
Proof.
  intros Hdir Hrel.
  destruct (directory_parts base Hdir) as [Hbase_parts Hbase].
  destruct (relative_parts filename Hrel) as [Hfile_parts Hfile].
  destruct Hdir as (Hnormal & Hdot & Hend). destruct Hrel as (Hrel & _ & _).
  assert (base ≠ "") as Hne.
  { intros ->. by apply (normal_nonempty ""). }
  unfold Pathlib.Path, Pathlib.join. rewrite Hrel, Hend.
  rewrite bool_decide_eq_false_2 by done. cbn [orb].
  unfold Pathlib.normal.
  rewrite root_app_slash, parts_app_slash by done.
  rewrite concat_app by done. rewrite Hfile, <- !append_assoc, Hbase.
  rewrite append_assoc. case_bool_decide as Hempty; [|done].
  destruct base; [done|]. by rewrite append_cons in Hempty.
Qed.

Lemma Path_absolute base filename :
  String.prefix "/" filename = true →
  Pathlib.Path base filename = Pathlib.normal filename.
Proof. intros Habs. unfold Pathlib.Path, Pathlib.join. by rewrite Habs. Qed.

Lemma Path_current_directory filename :
  relative filename → Pathlib.Path "." filename = filename.
Proof.
  intros Hrel. destruct (relative_parts filename Hrel) as [Hparts Hfile].
  destruct Hrel as (Hrel & _ & _).
  unfold Pathlib.Path, Pathlib.join. rewrite Hrel. cbn [bool_decide orb].
  change (bool_decide ("." = "") || Pathlib.ends_with_slash ".") with false.
  cbn iota. unfold Pathlib.normal.
  rewrite parts_app_slash. change (Pathlib.parts ".") with (@nil string).
  cbn [app]. change (Pathlib.root ("." +:+ "/" +:+ filename)) with "".
  change ("" +:+ ?x) with x. rewrite Hfile.
  case_bool_decide as Hempty; [|done].
  subst filename. by destruct Hparts.
Qed.

(** X10.  The path written for a physical location depends on the base
    path and the [uri] as follows: a relative [uri] (in normal form) under
    a base path naming a directory gives [<base_path>/<uri>]; under the
    base path ["."] it gives the [uri] alone, with no ["./"] before it; an
    absolute [uri] is written without the base path. *)
Theorem X10_base_path_prepended (pm am rm : gmap string json)
    filename startLine line self :
  pm !! "artifactLocation" = Some (JObj am) →
  am !! "uri" = Some (JStr filename) →
  pm !! "region" = Some (JObj rm) →
  rm !! "startLine" = Some startLine →
  Py.format_i startLine = Returned line →
  rm !! "startColumn" = None →
  (directory (base_path self) → relative filename →
   write_physical_location (JObj pm) self
   = (Returned (),
      append_dst (base_path self +:+ "/" +:+ filename
                  +:+ ":" +:+ line +:+ ": ") self))
  ∧ (base_path self = "." → relative filename →
     write_physical_location (JObj pm) self
     = (Returned (), append_dst (filename +:+ ":" +:+ line +:+ ": ") self))
  ∧ (String.prefix "/" filename = true →
     write_physical_location (JObj pm) self
     = (Returned (),
        append_dst (Pathlib.normal filename +:+ ":" +:+ line +:+ ": ") self)).
Proof.
  intros Hartifact Huri Hregion Hline Hformat Hcolumn.
  assert (write_physical_location (JObj pm) self
          = (Returned (),
             append_dst (Pathlib.Path (base_path self) filename
                         +:+ ":" +:+ line +:+ ": ") self)) as Hrun.
  { run. rewrite Hformat. run. same_text. }
  rewrite Hrun. split; [|split].
  - intros Hdir Hrel. rewrite Path_below_directory by done.
    by rewrite !append_assoc.
  - intros Hbase Hrel. by rewrite Hbase, Path_current_directory.
  - intros Habs. by rewrite Path_absolute.
Qed.

Lemma X10_base_path_prepended_witness :
  let physical : gmap string json :=
    list_to_map [("artifactLocation", obj [("uri", JStr "src/lib/foo.c")]);
                 ("region", obj [("startLine", JNum 3)])] in
  write_physical_location (JObj physical) (init "" "/home/dev/project")
  = (Returned (),
     init "/home/dev/project/src/lib/foo.c:3: " "/home/dev/project")
  ∧ write_physical_location (JObj physical) (init "" ".")
    = (Returned (), init "src/lib/foo.c:3: " ".").
Proof.
  intros physical. split.
  - refine (proj1 (X10_base_path_prepended physical
                     (list_to_map [("uri", JStr "src/lib/foo.c")])
                     (list_to_map [("startLine", JNum 3)])
                     "src/lib/foo.c" (JNum 3) "3"
                     (init "" "/home/dev/project") _ _ _ _ _ _) _ _);
      try reflexivity.
    + repeat split; try reflexivity. discriminate.
    + repeat split; try reflexivity. discriminate.
  - refine (proj1 (proj2 (X10_base_path_prepended physical
                     (list_to_map [("uri", JStr "src/lib/foo.c")])
                     (list_to_map [("startLine", JNum 3)])
                     "src/lib/foo.c" (JNum 3) "3"
                     (init "" ".") _ _ _ _ _ _)) _ _);
      try reflexivity.
    repeat split; try reflexivity. discriminate.
Defined.

(** ** [main]: one dumper per document *)

(** The loop of [main], on the documents the loader returned for the paths
    found: each is the string form of [sarif_path.parent] and the list
    [sarif_file.get_results()] returns.  The dumpers share [sys.stdout],
    whose contents are threaded through; the loop ends at the first
    exception. *)
Fixpoint main (str_of_container : json → string)
    (documents : list (string * list json)) (stdout : string)
    : outcome unit * string :=
  match documents with
  | [] => (Returned (), stdout)
  | (parent, results) :: rest =>
      let dumper := init stdout parent in
      match dump_sarif_file str_of_container results dumper with
      | (Returned _, dumper') => main str_of_container rest (dst_file dumper')
      | (Raised e, dumper') => (Raised e, dst_file dumper')
      end
  end.

(** What a document writes, rendered alone to an empty sink. *)
Definition document_text (str_of_container : json → string)
    (document : string * list json) : outcome unit * string :=
  let (outcome, dumper) :=
    dump_sarif_file str_of_container document.2 (init "" document.1) in
  (outcome, dst_file dumper).

Lemma main_app str first : ∀ rest stdout stdout',
  main str first stdout = (Returned (), stdout') →
  main str (first ++ rest)%list stdout = main str rest stdout'.
Proof.
  induction first as [|[parent results] first IH]; intros rest stdout stdout'.
  - by intros [= <-].
  - cbn [app main].
    destruct (dump_sarif_file str results (init stdout parent))
      as [[[]|e] dumper']; [|done].
    apply IH.
Qed.

Lemma dump_sarif_file_text str results parent stdout :
  let (outcome, dumper) := dump_sarif_file str results (init "" parent) in
  ∃ dumper',
    dump_sarif_file str results (init stdout parent) = (outcome, dumper')
    ∧ dst_file dumper' = stdout +:+ dst_file dumper.
Proof.
  destruct (appending_dump_sarif_file str results parent JNull)
    as (outcome & written & last & Hrun).
  unfold init. rewrite (Hrun ""), (Hrun stdout). eauto.
Qed.

(** X11.  What [main] writes for a document does not depend on the
    documents before it nor on what the output already holds: it is the
    text the document gives when rendered alone by a fresh dumper.  If that
    rendering raises, [main] ends there with what it wrote, and the
    documents after it are not rendered. *)
Theorem X11_main_documents str document rest stdout :
  main str (document :: rest) stdout
  = match document_text str document with
    | (Returned _, text) => main str rest (stdout +:+ text)
    | (Raised e, text) => (Raised e, stdout +:+ text)
    end.
Proof.
  destruct document as [parent results]. unfold document_text.
  cbn [main fst snd].
  pose proof (dump_sarif_file_text str results parent stdout) as Htext.
  destruct (dump_sarif_file str results (init "" parent))
    as [outcome dumper].
  destruct Htext as (dumper' & -> & ->). by destruct outcome as [[]|e].
Qed.

Lemma dump_sarif_file_header str result results l name self :
  first_logical_location result = [l] →
  Py.eq l (last_logical_location self) = false →
  Py.getitem l "kind" = Returned (JStr "function") →
  Py.getitem l "fullyQualifiedName" = Returned name →
  ∃ written,
    dst_file (dump_sarif_file str (result :: results) self).2
    = dst_file self +:+ "In function '" +:+ format_s str name +:+ "':"
      +:+ Py.newline +:+ written.
Proof.
  intros Hfirst Hne Hkind Hname.
  pose proof (write_logical_location_new str l _ name self Hne Hkind
                (py_eq_refl _) Hname) as Hheader.
  pose proof (dump_sarif_result_after_logical str result l self _
                Hfirst Hheader) as Hresult.
  set (self1 := {| dst_file := _ |}) in *.
  destruct (appending_run (dump_sarif_result str (drop_logical result)) self1
              (appending_dump_sarif_result str _)) as (w1 & Hw1 & _).
  rewrite <- Hresult in Hw1.
  unfold dump_sarif_file. cbn [for_each]. rewrite bind_run.
  destruct (dump_sarif_result str result self) as [[[]|e] self2];
    cbn [snd] in Hw1.
  - destruct (appending_run (for_each (dump_sarif_result str) results) self2
                (appending_dump_sarif_file str results)) as (w2 & Hw2 & _).
    exists (w1 +:+ w2). rewrite Hw2, Hw1. subst self1. cbn [dst_file].
    by rewrite !append_assoc.
  - exists w1. cbn [snd]. rewrite Hw1. subst self1. cbn [dst_file].
    by rewrite !append_assoc.
Qed.

(** X12.  The stored logical location does not pass from one document to
    the next: when the first result of a document is in a function, [main]
    writes the "In function" header at the start of that document's text,
    whatever the documents before it ended with. *)
Theorem X12_main_header_per_document str before parent result results
    (lm : gmap string json) name stdout stdout' :
  main str before stdout = (Returned (), stdout') →
  first_logical_location result = [JObj lm] →
  lm !! "kind" = Some (JStr "function") →
  lm !! "fullyQualifiedName" = Some name →
  ∃ written,
    (main str (before ++ [(parent, result :: results)])%list stdout).2
    = stdout' +:+ "In function '" +:+ format_s str name +:+ "':"
      +:+ Py.newline +:+ written.
Proof.
  intros Hbefore Hfirst Hkind Hname.
  rewrite (main_app _ _ _ _ _ Hbefore). cbn [main].
  destruct (dump_sarif_file_header str result results (JObj lm) name
              (init stdout' parent) Hfirst) as (written & Hwritten).
  - reflexivity.
  - by apply getitem_Some.
  - by apply getitem_Some.
  - exists written.
    destruct (dump_sarif_file str (result :: results) (init stdout' parent))
      as [[[]|e] dumper']; exact Hwritten.
Qed.

Lemma X12_main_header_per_document_witness :
  ∃ written,
    (main example_str
       [("/a", [result_in "f" "first" []]);
        ("/b", [result_in "f" "second" []])] "").2
    = lines ["In function 'f':"; "first"] +:+ "In function '"
      +:+ format_s example_str (JStr "f") +:+ "':" +:+ Py.newline +:+ written.
Proof.
  apply (X12_main_header_per_document example_str
           [("/a", [result_in "f" "first" []])] "/b"
           (result_in "f" "second" []) []
           (list_to_map [("kind", JStr "function");
                         ("fullyQualifiedName", JStr "f")])
           (JStr "f") "" (lines ["In function 'f':"; "first"]));
    reflexivity.
Defined.

(** ** The line of a result *)

(** The text an optional field adds to the line. *)
Definition optional (field : option json) (text : json → string) : string :=
  match field with
  | Some value => text value
  | None => ""
  end.

(** The position prefix of a location: that of its physical location, or
    nothing without one. *)
Definition location_prefix (base : string) (lm : gmap string json)
    : option string :=
  match lm !! "physicalLocation" with
  | None => Some ""
  | Some pl => physical_prefix base pl
  end.

(** X13.  The line of a result, when its first location (if any) writes no
    header: the position prefix of that location, ["<level>: "] if there is
    a level, the message text, the annotations of its taxa in order,
    [" [<ruleId>]"] if there is a rule id, and a newline, with nothing in
    between; level, text, id and rule id are printed as ['%s'] prints
    them. *)
Theorem X13_result_line str (m mm : gmap string json) text prefix texts self :
  match m !! "locations" with
  | None => prefix = ""
  | Some locations =>
      ∃ (lm : gmap string json) rest,
        locations = JArr (JObj lm :: rest)
        ∧ silent_logical (last_logical_location self) lm = true
        ∧ location_prefix (base_path self) lm = Some prefix
  end →
  m !! "message" = Some (JObj mm) →
  mm !! "text" = Some text →
  match m !! "taxa" with
  | None => texts = []
  | Some taxa =>
      ∃ rdrs, taxa = JArr rdrs
              ∧ Forall2 (λ rdr t, annotation str rdr = Some t) rdrs texts
  end →
  dump_result_line str (JObj m) self
  = (Returned (),
     append_dst
       (prefix
        +:+ optional (m !! "level") (λ level, format_s str level +:+ ": ")
        +:+ format_s str text
        +:+ String.concat "" texts
        +:+ optional (m !! "ruleId") (λ rule, " [" +:+ format_s str rule +:+ "]")
        +:+ Py.newline) self).
Proof.
  intros Hlocation Hmessage Htext Htaxa.
  pose proof (write_location_quiet str) as Hquiet.
  pose proof (taxa_annotations str) as Hloop.
  unfold dump_result_line.
  set (handle := write_location str) in *.
  set (body := write_reporting_descriptor_reference str) in *.
  clearbody handle body.
  destruct (m !! "level") as [level|] eqn:Hlevel;
    destruct (m !! "ruleId") as [rule|] eqn:Hrule; cbn [optional];
    (destruct (m !! "locations") as [locations|] eqn:Hlocs;
     [destruct Hlocation as (lm & rest & -> & Hsilent & Hprefix);
      specialize (Hquiet lm prefix self Hsilent Hprefix)
     |subst prefix]);
    (destruct (m !! "taxa") as [taxa|] eqn:Htaxa';
     [destruct Htaxa as (rdrs & -> & Hall);
      specialize (Hloop rdrs texts)
     |subst texts]);
    run; rewrite ?Hquiet; run; rewrite ?Hloop by exact Hall; run;
    unfold append_dst;
    cbn [format_s dst_file base_path last_logical_location String.concat];
    rewrite ?append_assoc, ?append_empty_r; reflexivity.
Qed.

Lemma X13_result_line_witness :
  let reference (name id : string) : json :=
    obj [("toolComponent", obj [("name", JStr name)]); ("id", JStr id)] in
  let location : gmap string json :=
    list_to_map
      [("logicalLocations", JArr [function "f"]);
       ("physicalLocation",
        obj [("artifactLocation", obj [("uri", JStr "foo.c")]);
             ("region", obj [("startLine", JNum 42); ("startColumn", JNum 5)])])] in
  let result : gmap string json :=
    list_to_map
      [("locations", JArr [JObj location]); ("level", JStr "warning");
       ("message", message "buffer overflow");
       ("taxa", JArr [reference "cwe" "120"; reference "other" "x";
                      reference "cwe" "787"]);
       ("ruleId", JStr "-Wanalyzer-out-of-bounds")] in
  let dumper :=
    {| dst_file := ""; base_path := "/src";
       last_logical_location := function "f" |} in
  dump_result_line example_str (JObj result) dumper
  = (Returned (),
     append_dst
       (lines ["/src/foo.c:42:5: warning: buffer overflow [CWE-120] [CWE-787] [-Wanalyzer-out-of-bounds]"])
       dumper).
Proof.
  intros reference location result dumper.
  refine (X13_result_line example_str result
            (list_to_map [("text", JStr "buffer overflow")])
            (JStr "buffer overflow") "/src/foo.c:42:5: "
            [" [CWE-120]"; ""; " [CWE-787]"] dumper _ _ _ _).
  - exists location, []. repeat split; reflexivity.
  - reflexivity.
  - reflexivity.
  - eexists. split; [reflexivity|]. repeat constructor.
Defined.

(** ** Values that are not objects *)

(** X14.  Where an object is subscripted, anything that is not one (a
    list, a string, a number, [true], [null]) raises [TypeError] before
    anything is written: a result, a code flow, a thread flow, a trace step
    and a physical location. *)
Theorem X14_not_an_object str value self :
  (∀ m, value ≠ JObj m) →
  dump_sarif_result str value self = (Raised TypeError, self)
  ∧ write_code_flow str value self = (Raised TypeError, self)
  ∧ write_thread_flow str value self = (Raised TypeError, self)
  ∧ (∀ idx,
       write_thread_flow_location str idx value self = (Raised TypeError, self))
  ∧ write_physical_location value self = (Raised TypeError, self).
Proof.
  intros Hvalue.
  assert (∀ key, Py.getitem value key = Raised TypeError) as Hget.
  { intros key. destruct value as [| | | | |m]; try done. by destruct (Hvalue m). }
  split; [|split; [|split; [|split]]].
  - destruct value as [| | |s|l|m]; [by run..| | |by destruct (Hvalue m)].
    + run. cbn [Py.contains Py.getitem].
      destruct (Py.substring "locations" s); [done|]. cbn beta iota.
      by destruct (Py.substring "level" s).
    + run. cbn [Py.contains Py.getitem].
      destruct (existsb (Py.eq (JStr "locations")) l); [done|]. cbn beta iota.
      by destruct (existsb (Py.eq (JStr "level")) l).
  - unfold write_code_flow. by rewrite bind_run, eval_run, Hget.
  - unfold write_thread_flow. by rewrite bind_run, eval_run, Hget.
  - intros idx. unfold write_thread_flow_location.
    by rewrite bind_run, eval_run, Hget.
  - unfold write_physical_location. by rewrite bind_run, eval_run, Hget.
Qed.

Lemma X14_not_an_object_witness :
  dump_sarif_result example_str (JStr "locations") (init "" ".")
  = (Raised TypeError, init "" ".").
Proof.
  apply (proj1 (X14_not_an_object example_str (JStr "locations") (init "" ".")
                  (λ m, ltac:(discriminate)))).
Defined.

(** ** A taxonomy reference that cannot be rendered *)

(** X15.  A taxonomy reference with a tool component that has no [name]
    raises [KeyError], and one named "cwe" that has no [id] raises
    [KeyError] too; nothing of the annotation is written.  A reference to
    another tool component needs no [id]. *)
Theorem X15_reference_fields str (m tc : gmap string json) self :
  m !! "toolComponent" = Some (JObj tc) →
  (tc !! "name" = None →
   write_reporting_descriptor_reference str (JObj m) self
   = (Raised (KeyError (JStr "name")), self))
  ∧ (tc !! "name" = Some (JStr "cwe") →
     m !! "id" = None →
     write_reporting_descriptor_reference str (JObj m) self
     = (Raised (KeyError (JStr "id")), self))
  ∧ (∀ name,
       tc !! "name" = Some name →
       name ≠ JStr "cwe" →
       write_reporting_descriptor_reference str (JObj m) self
       = (Returned (), self)).
Proof.
  intros Hcomponent. split; [|split].
  - intros Hname. by run.
  - intros Hname Hid. run. rewrite py_eq_refl. by run.
  - intros name Hname Hother. run.
    rewrite py_eq_cwe, bool_decide_eq_false_2 by done. done.
Qed.

Lemma X15_reference_fields_witness :
  write_reporting_descriptor_reference example_str
    (obj [("toolComponent", obj [("name", JStr "cwe")])]) (init "overflow" ".")
  = (Raised (KeyError (JStr "id")), init "overflow" ".").
Proof.
  refine (proj1 (proj2 (X15_reference_fields example_str
                          (list_to_map [("toolComponent", obj [("name", JStr "cwe")])])
                          (list_to_map [("name", JStr "cwe")])
                          (init "overflow" ".") _)) _ _); reflexivity.
Defined.
